(** * Revenue roll-ups: a shallow embedding of [revenue_analysis.py] and
    [detailed_rev.py]

    The program is a pipeline over three pandas tables (teams, revenue,
    exchange rates): [get_currency_code] attaches a currency to every team,
    [get_team] left-joins revenue rows to teams, [convert_currency] left-joins
    the result to the rates and computes [Revenue_USD], and the aggregators
    group and sum.

    Tables are lists of records, one record per row, whose fields are the
    columns the source names.  A missing cell (NaN, NaT, None) is [None] or
    the [NaN]/[NaT] constructor of its cell type.  A date or revenue cell
    keeps the form it has in the program: text or integer as read from the
    file, timestamp or float once the source has converted the column.
    The tables a function receives live in a store of objects, because the
    source assigns columns on its arguments.  The float arithmetic and the
    parsers of the library are a parameter, [Runtime]. *)

From Stdlib Require Import ZArith Ascii PrimFloat FloatOps SpecFloat.
From stdpp Require Import base option list sorting gmap strings.

(** ** Exceptions and results *)

Inductive exn := KeyError | ValueError | IOError.

Inductive result (A : Type) :=
  | Ok (a : A)
  | Raise (e : exn).
Arguments Ok {A} a.
Arguments Raise {A} e.

Definition result_bind {A B} (r : result A) (k : A → result B) : result B :=
  match r with
  | Ok a => k a
  | Raise e => Raise e
  end.

(** Apply a fallible conversion to every cell of a column, first failure wins. *)
Fixpoint result_mapM {A B} (f : A → result B) (l : list A) : result (list B) :=
  match l with
  | [] => Ok []
  | a :: l' =>
      result_bind (f a) (λ b, result_bind (result_mapM f l') (λ bs, Ok (b :: bs)))
  end.

(** ** Cells *)

(** A parsed date: calendar day and time of day. *)
Record Timestamp := { ts_year : Z; ts_month : Z; ts_day : Z; ts_time : Z }.

Global Instance Timestamp_eq_dec : EqDecision Timestamp.
Proof. solve_decision. Defined.

(** A monthly period, the value of [.dt.to_period('M')]. *)
Record Period := { p_year : Z; p_month : Z }.

Global Instance Period_eq_dec : EqDecision Period.
Proof. solve_decision. Defined.

Definition to_period_M (t : Timestamp) : Period :=
  {| p_year := ts_year t; p_month := ts_month t |}.

(** A cell of a date column: as read from the file (text) or parsed. *)
Inductive date_cell :=
  | NaT
  | DateStr (s : string)
  | DateTs (t : Timestamp).

Global Instance date_cell_eq_dec : EqDecision date_cell.
Proof. solve_decision. Defined.

(** The float64 arithmetic and the two parsers of the runtime library that
    the source calls but does not define.  [num] is the type of the numbers
    of a float column that are not NaN; NaN itself is [None]. *)
Class Runtime (num : Type) := {
  num_zero : num;
  num_add : num → num → num;
  num_mul : num → num → num;
  num_of_Z : Z → num;
  parse_num : string → option num;
  parse_date : string → option Timestamp
}.

(** A cell of a numeric column: integer, text or float as read, float after
    [astype(float)]. *)
Inductive num_cell (num : Type) :=
  | NaN
  | NumInt (z : Z)
  | NumStr (s : string)
  | NumFloat (x : num).
Arguments NaN {num}.
Arguments NumInt {num} z.
Arguments NumStr {num} s.
Arguments NumFloat {num} x.

(** ** Rows *)

Record TeamRecord := {
  ID : option Z;
  Name : option string;
  Email : option string;
  Rep_Or_Director : option string;
  Status : option string;
  Region : option string;
  Team : option string;
  Country : option string;
  Currency : option string
}.

Record RevenueRecord (num : Type) := {
  UserID : option Z;
  Date : date_cell;
  Revenue : num_cell num
}.
Arguments UserID {num} r.
Arguments Date {num} r.
Arguments Revenue {num} r.

Record ExchangeRate (num : Type) := {
  FROM_CURRENCY : option string;
  DATE : date_cell;
  EXCHANGE_RATE : option num
}.
Arguments FROM_CURRENCY {num} e.
Arguments DATE {num} e.
Arguments EXCHANGE_RATE {num} e.

(** A row of the table [get_team] returns: the revenue columns followed by
    the team columns. *)
Record JoinedRecord (num : Type) := {
  j_rev : RevenueRecord num;
  j_team : TeamRecord
}.
Arguments j_rev {num} j.
Arguments j_team {num} j.

(** A row of the table [convert_currency] returns: the joined columns, the
    rate columns and [Revenue_USD]. *)
Record ConvertedRecord (num : Type) := {
  c_joined : JoinedRecord num;
  c_rate : ExchangeRate num;
  Revenue_USD : option num
}.
Arguments c_joined {num} c.
Arguments c_rate {num} c.
Arguments Revenue_USD {num} c.

(** The right-hand columns of a left join when nothing matches. *)
Definition team_NA : TeamRecord :=
  {| ID := None; Name := None; Email := None; Rep_Or_Director := None;
     Status := None; Region := None; Team := None; Country := None;
     Currency := None |}.

Definition rate_NA {num} : ExchangeRate num :=
  {| FROM_CURRENCY := None; DATE := NaT; EXCHANGE_RATE := None |}.

(** ** The store *)

(** A table object, in one of the five shapes the pipeline passes around. *)
Inductive frame (num : Type) :=
  | Teams (rows : list TeamRecord)
  | Revenues (rows : list (RevenueRecord num))
  | Rates (rows : list (ExchangeRate num))
  | Joined (rows : list (JoinedRecord num))
  | Converted (rows : list (ConvertedRecord num)).
Arguments Teams {num} rows.
Arguments Revenues {num} rows.
Arguments Rates {num} rows.
Arguments Joined {num} rows.
Arguments Converted {num} rows.

Definition loc := positive.

(** A computation on the store: the store it leaves and what it returns or
    raises.  The store survives a raise, as the assignments made before it do. *)
Definition M (num A : Type) := gmap loc (frame num) → gmap loc (frame num) * result A.

Definition ret {num A} (a : A) : M num A := λ h, (h, Ok a).

Definition raise {num A} (e : exn) : M num A := λ h, (h, Raise e).

Definition bind {num A B} (m : M num A) (k : A → M num B) : M num B :=
  λ h, match m h with
       | (h', Ok a) => k a h'
       | (h', Raise e) => (h', Raise e)
       end.

Definition lift {num A} (r : result A) : M num A := λ h, (h, r).

Definition load {num} (l : loc) : M num (frame num) :=
  λ h, match h !! l with
       | Some f => (h, Ok f)
       | None => (h, Raise KeyError)
       end.

Definition store {num} (l : loc) (f : frame num) : M num unit :=
  λ h, (<[l := f]> h, Ok tt).

Definition alloc {num} (f : frame num) : M num loc :=
  λ h, let l := fresh (dom h) in (<[l := f]> h, Ok l).

Notation "'let!' x ':=' m 'in' k" := (bind m (λ x, k))
  (at level 10, x name, m at level 100, k at level 200, only parsing).
Notation "'run!' m 'in' k" := (bind m (λ _, k))
  (at level 10, m at level 100, k at level 200, only parsing).

(** ** Library operations on tables *)

(** [pd.merge(left, right, how='left', ...)]: every left row, in order, once
    per right row whose key equals its key, and once with the right columns
    missing when there is none.  Keys are compared as values, so a missing
    key equals a missing key (pandas matches null keys with each other). *)
Definition left_rows {A B C} (on : A → B → Prop) `{!∀ a b, Decision (on a b)}
    (row : A → B → C) (na : B) (right : list B) (a : A) : list C :=
  match filter (on a) right with
  | [] => [row a na]
  | b :: bs => row a <$> (b :: bs)
  end.

Definition merge_left {A B C} (on : A → B → Prop) `{!∀ a b, Decision (on a b)}
    (row : A → B → C) (na : B) (left : list A) (right : list B) : list C :=
  left ≫= left_rows on row na right.

(** [groupby(key, sort=True, dropna=True)]: the distinct keys that are not
    missing, in increasing order, each with its rows in table order. *)
Definition groupby {A K} `{!EqDecision K} (le : relation K) `{!∀ x y, Decision (le x y)}
    (key : A → option K) (df : list A) : list (K * list A) :=
  (λ k, (k, filter (λ r, key r = Some k) df)) <$>
    merge_sort le (remove_dups (omap key df)).

(** The ['first'] aggregation: the first value of the group that is not
    missing. *)
Definition first {A B} (col : A → option B) (group : list A) : option B :=
  head (omap col group).

(** ** The order of group keys

    Timestamps and periods are ordered field by field; text dates as text,
    and before every timestamp. *)

Definition lex (c : comparison) (rest : bool) : bool :=
  match c with
  | Lt => true
  | Eq => rest
  | Gt => false
  end.

Definition Timestamp_leb (a b : Timestamp) : bool :=
  lex (ts_year a ?= ts_year b)%Z
    (lex (ts_month a ?= ts_month b)%Z
       (lex (ts_day a ?= ts_day b)%Z (ts_time a <=? ts_time b)%Z)).

Definition date_cell_leb (a b : date_cell) : bool :=
  match a, b with
  | NaT, _ => true
  | _, NaT => false
  | DateStr s, DateStr s' => String.leb s s'
  | DateStr _, DateTs _ => true
  | DateTs _, DateStr _ => false
  | DateTs t, DateTs t' => Timestamp_leb t t'
  end.

Definition period_le (a b : Period) : Prop :=
  lex (p_year a ?= p_year b)%Z (p_month a <=? p_month b)%Z = true.

Global Instance period_le_dec a b : Decision (period_le a b).
Proof. unfold period_le. apply _. Defined.

Definition quarterly_le (a b : Z * date_cell) : Prop :=
  lex (a.1 ?= b.1)%Z (date_cell_leb a.2 b.2) = true.

Global Instance quarterly_le_dec a b : Decision (quarterly_le a b).
Proof. unfold quarterly_le. apply _. Defined.

Section Pipeline.
Context {num : Type} {rt : Runtime num}.

(** The ['sum'] aggregation of a float column: the values are added in
    table order starting from zero, a missing value is skipped. *)
Definition nansum (col : list (option num)) : num :=
  fold_left (λ acc v, match v with Some x => num_add acc x | None => acc end)
    col num_zero.

Definition sum {A} (col : A → option num) (group : list A) : option num :=
  Some (nansum (col <$> group)).

(** [pd.to_datetime] on one cell. *)
Definition to_datetime (c : date_cell) : result date_cell :=
  match c with
  | NaT => Ok NaT
  | DateTs t => Ok (DateTs t)
  | DateStr s =>
      match parse_date s with
      | Some t => Ok (DateTs t)
      | None => Raise ValueError
      end
  end.

(** [.astype(float)] on one cell. *)
Definition astype_float (c : num_cell num) : result (num_cell num) :=
  match c with
  | NaN => Ok NaN
  | NumInt z => Ok (NumFloat (num_of_Z z))
  | NumFloat x => Ok (NumFloat x)
  | NumStr s =>
      match parse_num s with
      | Some x => Ok (NumFloat x)
      | None => Raise ValueError
      end
  end.

(** The float64 value of a cell of a float column. *)
Definition float_of (c : num_cell num) : option num :=
  match c with
  | NumFloat x => Some x
  | _ => None
  end.

(** The product of two float cells: missing as soon as one is. *)
Definition float_mul (a b : option num) : option num :=
  match a, b with
  | Some x, Some y => Some (num_mul x y)
  | _, _ => None
  end.

(** The cells after conversion: a date column holds timestamps and NaT, a
    float column floats and NaN. *)
Definition is_datetime (d : date_cell) : Prop :=
  match d with
  | DateStr _ => False
  | _ => True
  end.

Definition is_float (x : num_cell num) : Prop :=
  match x with
  | NaN | NumFloat _ => True
  | _ => False
  end.

(** A float64 value as a cell of a float column. *)
Definition float_cell (v : option num) : num_cell num :=
  match v with
  | Some x => NumFloat x
  | None => NaN
  end.

(** *** Column assignments *)

Definition set_Currency (v : option string) (t : TeamRecord) : TeamRecord :=
  {| ID := ID t; Name := Name t; Email := Email t;
     Rep_Or_Director := Rep_Or_Director t; Status := Status t;
     Region := Region t; Team := Team t; Country := Country t;
     Currency := v |}.

Definition set_Date (v : date_cell) (j : JoinedRecord num) : JoinedRecord num :=
  {| j_rev := {| UserID := UserID (j_rev j); Date := v; Revenue := Revenue (j_rev j) |};
     j_team := j_team j |}.

Definition set_Revenue (v : num_cell num) (j : JoinedRecord num) : JoinedRecord num :=
  {| j_rev := {| UserID := UserID (j_rev j); Date := Date (j_rev j); Revenue := v |};
     j_team := j_team j |}.

Definition set_DATE (v : date_cell) (q : ExchangeRate num) : ExchangeRate num :=
  {| FROM_CURRENCY := FROM_CURRENCY q; DATE := v; EXCHANGE_RATE := EXCHANGE_RATE q |}.

(** *** Typed reads of the store; a table of another shape lacks the
    column the caller asks for. *)

Definition load_teams (l : loc) : M num (list TeamRecord) :=
  let! f := load l in
  match f with Teams rows => ret rows | _ => raise KeyError end.

Definition load_revenues (l : loc) : M num (list (RevenueRecord num)) :=
  let! f := load l in
  match f with Revenues rows => ret rows | _ => raise KeyError end.

Definition load_rates (l : loc) : M num (list (ExchangeRate num)) :=
  let! f := load l in
  match f with Rates rows => ret rows | _ => raise KeyError end.

Definition load_joined (l : loc) : M num (list (JoinedRecord num)) :=
  let! f := load l in
  match f with Joined rows => ret rows | _ => raise KeyError end.

Definition load_converted (l : loc) : M num (list (ConvertedRecord num)) :=
  let! f := load l in
  match f with Converted rows => ret rows | _ => raise KeyError end.

(** ** [get_currency_code] *)

(** The nested [np.where] of lines 74-94 on one cell of [Country]. *)
Definition country_to_currency (country : option string) : string :=
  if bool_decide (country = Some "US") then "USD"
  else if bool_decide (country = Some "Japan") then "JPY"
  else if bool_decide (country = Some "Netherlands")
          || bool_decide (country = Some "Spain") then "EUR"
  else if bool_decide (country = Some "Australia") then "AUD"
  else if bool_decide (country = Some "UK") then "GBP"
  else if bool_decide (country = Some "Brazil") then "BRL"
  else if bool_decide (country = Some "Canada") then "CAD"
  else if bool_decide (country = Some "India") then "INR"
  else if bool_decide (country = Some "Mexico") then "MXN"
  else if bool_decide (country = Some "Singapore") then "SGD"
  else "EUR".

Definition assign_currency (t : TeamRecord) : TeamRecord :=
  set_Currency (Some (country_to_currency (Country t))) t.

(** [teams_df['Currency'] = np.where(...); return teams_df]: the column is
    written on the argument and the argument itself is returned. *)
Definition get_currency_code (teams_df : loc) : M num loc :=
  let! rows := load_teams teams_df in
  run! store teams_df (Teams (assign_currency <$> rows)) in
  ret teams_df.

(** ** [get_team] *)

Definition team_row (r : RevenueRecord num) (t : TeamRecord) : JoinedRecord num :=
  {| j_rev := r; j_team := t |}.

(** The key of the team join, line 186: [UserID] against [ID]. *)
Definition team_key (r : RevenueRecord num) (t : TeamRecord) : Prop :=
  UserID r = ID t.

Global Instance team_key_dec r t : Decision (team_key r t).
Proof. unfold team_key. apply _. Defined.

(** Line 186 on the rows of the two tables. *)
Definition merge_team (revenue_df : list (RevenueRecord num))
    (teams_df : list TeamRecord) : list (JoinedRecord num) :=
  merge_left team_key team_row team_NA revenue_df teams_df.

Definition get_team (revenue_df teams_df : loc) : M num loc :=
  let! revenue := load_revenues revenue_df in
  let! teams := load_teams teams_df in
  alloc (Joined (merge_team revenue teams)).

(** ** [convert_currency] *)

Definition parse_Date (j : JoinedRecord num) : result (JoinedRecord num) :=
  result_bind (to_datetime (Date (j_rev j))) (λ d, Ok (set_Date d j)).

Definition parse_DATE (q : ExchangeRate num) : result (ExchangeRate num) :=
  result_bind (to_datetime (DATE q)) (λ d, Ok (set_DATE d q)).

Definition float_Revenue (j : JoinedRecord num) : result (JoinedRecord num) :=
  result_bind (astype_float (Revenue (j_rev j))) (λ x, Ok (set_Revenue x j)).

(** Line 144: [np.where(Currency == 'USD', Revenue, Revenue * EXCHANGE_RATE)]. *)
Definition revenue_usd (j : JoinedRecord num) (q : ExchangeRate num) : option num :=
  if bool_decide (Currency (j_team j) = Some "USD")
  then float_of (Revenue (j_rev j))
  else float_mul (float_of (Revenue (j_rev j))) (EXCHANGE_RATE q).

Definition rate_row (j : JoinedRecord num) (q : ExchangeRate num) : ConvertedRecord num :=
  {| c_joined := j; c_rate := q; Revenue_USD := revenue_usd j q |}.

(** The key of the rate join, line 141: (Currency, Date) against
    (FROM_CURRENCY, DATE). *)
Definition rate_key (j : JoinedRecord num) (q : ExchangeRate num) : Prop :=
  (Currency (j_team j), Date (j_rev j)) = (FROM_CURRENCY q, DATE q).

Global Instance rate_key_dec j q : Decision (rate_key j q).
Proof. unfold rate_key. apply _. Defined.

(** Lines 141-144 on the rows of the two tables. *)
Definition merge_rates (revenue_df : list (JoinedRecord num))
    (currency_df : list (ExchangeRate num)) : list (ConvertedRecord num) :=
  merge_left rate_key rate_row rate_NA revenue_df currency_df.

(** Lines 138-146.  Each assignment reads its table from the store and
    writes it back, so a conversion that raises leaves the earlier
    assignments in place. *)
Definition convert_currency (revenue_df currency_df : loc) : M num loc :=
  let! revenue := load_joined revenue_df in
  let! revenue := lift (result_mapM parse_Date revenue) in
  run! store revenue_df (Joined revenue) in
  let! currency := load_rates currency_df in
  let! currency := lift (result_mapM parse_DATE currency) in
  run! store currency_df (Rates currency) in
  let! revenue := load_joined revenue_df in
  let! revenue := lift (result_mapM float_Revenue revenue) in
  run! store revenue_df (Joined revenue) in
  let! revenue := load_joined revenue_df in
  let! currency := load_rates currency_df in
  alloc (Converted (merge_rates revenue currency)).

(** The rows of the table [convert_currency] returns, as a function of the
    rows of its arguments: lines 138-144 without the store. *)
Definition convert_rows (revenue_df : list (JoinedRecord num))
    (currency_df : list (ExchangeRate num)) : result (list (ConvertedRecord num)) :=
  result_bind (result_mapM parse_Date revenue_df) (λ revenue1,
  result_bind (result_mapM parse_DATE currency_df) (λ currency1,
  result_bind (result_mapM float_Revenue revenue1) (λ revenue2,
  Ok (merge_rates revenue2 currency1)))).

(** Lines 283-287 of [main]: the three stages in a row, each on the table
    the stage before returned. *)
Definition main_transform (teams_df revenue_df currency_df : loc) : M num loc :=
  let! teams_df := get_currency_code teams_df in
  let! revenue_df := get_team revenue_df teams_df in
  convert_currency revenue_df currency_df.

(** The store [convert_currency] leaves behind when every cell converts:
    both arguments overwritten, nothing else touched. *)
Definition converted_store (h : gmap loc (frame num)) (revenue_df currency_df : loc)
    (revenue : list (JoinedRecord num)) (currency : list (ExchangeRate num))
    : gmap loc (frame num) :=
  <[revenue_df := Joined revenue]> (<[currency_df := Rates currency]> h).

(** What lines 138 and 140 do to one row of the first argument: the two
    cells are converted, every other cell is kept. *)
Definition converted_row (j j2 : JoinedRecord num) : Prop :=
  to_datetime (Date (j_rev j)) = Ok (Date (j_rev j2))
  ∧ astype_float (Revenue (j_rev j)) = Ok (Revenue (j_rev j2))
  ∧ UserID (j_rev j2) = UserID (j_rev j)
  ∧ j_team j2 = j_team j.

(** ** The aggregators *)

Definition c_rev (c : ConvertedRecord num) : RevenueRecord num := j_rev (c_joined c).
Definition c_team (c : ConvertedRecord num) : TeamRecord := j_team (c_joined c).

(** A date cell as a group key: NaT is no key. *)
Definition date_key (d : date_cell) : option date_cell :=
  match d with
  | NaT => None
  | _ => Some d
  end.

Record QuarterlyRow := {
  q_ID : Z;
  q_Date : date_cell;
  q_Email : option string;
  q_Name : option string;
  q_Team : option string;
  q_Revenue_USD : option num
}.

Definition quarterly_key (c : ConvertedRecord num) : option (Z * date_cell) :=
  match ID (c_team c), date_key (Date (c_rev c)) with
  | Some i, Some d => Some (i, d)
  | _, _ => None
  end.

(** Line 226: [groupby(['ID','Date'], as_index=False).agg({...})]. *)
Definition get_quarterly_rev (revenue_df : list (ConvertedRecord num)) : list QuarterlyRow :=
  (λ kg : Z * date_cell * list (ConvertedRecord num),
     {| q_ID := kg.1.1;
        q_Date := kg.1.2;
        q_Email := first (λ c, Email (c_team c)) kg.2;
        q_Name := first (λ c, Name (c_team c)) kg.2;
        q_Team := first (λ c, Team (c_team c)) kg.2;
        q_Revenue_USD := sum Revenue_USD kg.2 |})
  <$> groupby quarterly_le quarterly_key revenue_df.

Record MonthlyRow := {
  m_Month : Period;
  m_Revenue_USD : option num
}.

(** [.dt.to_period('M')] on one parsed cell. *)
Definition to_period (d : date_cell) : option Period :=
  match d with
  | DateTs t => Some (to_period_M t)
  | _ => None
  end.

(** The month cell line 242 computes for a row whose date converts. *)
Definition month_of (c : ConvertedRecord num) : option Period :=
  match to_datetime (Date (c_rev c)) with
  | Ok d => to_period d
  | Raise _ => None
  end.

(** Line 242 on one row: the row with its [Month] cell. *)
Definition with_Month (c : ConvertedRecord num) : result (option Period * ConvertedRecord num) :=
  result_bind (to_datetime (Date (c_rev c))) (λ d, Ok (to_period d, c)).

(** Lines 242-243.  The rows paired with their month are the table with
    its new [Month] column; the result keeps [Month] and the sum. *)
Definition get_total_monthly_revenue (df : list (ConvertedRecord num)) : result (list MonthlyRow) :=
  result_bind (result_mapM with_Month df) (λ rows,
    Ok ((λ kg : Period * list (option Period * ConvertedRecord num),
           {| m_Month := kg.1; m_Revenue_USD := sum (λ r, Revenue_USD r.2) kg.2 |})
        <$> groupby period_le fst rows)).

Record SalesRow := {
  s_UserID : Z;
  s_Email : option string;
  s_Name : option string;
  s_Rep_Or_Director : option string;
  s_Status : option string;
  s_Region : option string;
  s_Team : option string;
  s_Country : option string;
  s_Currency : option string;
  s_Revenue_USD : option num
}.

(** Lines 32-34 of [detailed_rev.py]: [groupby(['UserID']).agg({...})]. *)
Definition total_revenue (filtered_sales : list (ConvertedRecord num)) : list SalesRow :=
  (λ kg : Z * list (ConvertedRecord num),
     {| s_UserID := kg.1;
        s_Email := first (λ c, Email (c_team c)) kg.2;
        s_Name := first (λ c, Name (c_team c)) kg.2;
        s_Rep_Or_Director := first (λ c, Rep_Or_Director (c_team c)) kg.2;
        s_Status := first (λ c, Status (c_team c)) kg.2;
        s_Region := first (λ c, Region (c_team c)) kg.2;
        s_Team := first (λ c, Team (c_team c)) kg.2;
        s_Country := first (λ c, Country (c_team c)) kg.2;
        s_Currency := first (λ c, Currency (c_team c)) kg.2;
        s_Revenue_USD := sum Revenue_USD kg.2 |})
  <$> groupby Z.le (λ c, UserID (c_rev c)) filtered_sales.

(** [sales_df['UserID'].isin(sales_id)] on one row. *)
Definition isin (sales_id : list Z) (r : RevenueRecord num) : Prop :=
  match UserID r with
  | Some u => u ∈ sales_id
  | None => False
  end.

Global Instance isin_dec sales_id r : Decision (isin sales_id r).
Proof. unfold isin. destruct (UserID r); apply _. Defined.

(** [sales_rev], lines 24-37 of [detailed_rev.py]. *)
Definition sales_rev (sales_id : list Z) (sales_df teams_df currency_df : loc)
    : M num (list SalesRow) :=
  let! sales := load_revenues sales_df in
  let! filtered_sales := alloc (Revenues (filter (isin sales_id) sales)) in
  let! teams_df := get_currency_code teams_df in
  let! filtered_sales := get_team filtered_sales teams_df in
  let! filtered_sales := convert_currency filtered_sales currency_df in
  let! rows := load_converted filtered_sales in
  ret (total_revenue rows).
End Pipeline.

Arguments QuarterlyRow num : clear implicits.
Arguments MonthlyRow num : clear implicits.
Arguments SalesRow num : clear implicits.

(** ** [export_to_csv] *)

(** Lines 261-269.  [to_csv] is the write of the file, which may raise
    anything; whatever it raises is raised again as [IOError]. *)
Definition export_to_csv {A} (to_csv : list A → string → result unit)
    (df : list A) (file_path : string) : result unit :=
  match df with
  | [] => Raise ValueError
  | _ :: _ =>
      match to_csv df file_path with
      | Ok _ => Ok tt
      | Raise _ => Raise IOError
      end
  end.

(** ** [read_file] and the two [main]s

    The files, the terminal and the two builtins that read one number are
    the world the programs run in. *)

(** What [pd.read_csv] does with a file name. *)
Inductive csv_read (num : Type) :=
  | CsvTable (f : frame num)
  | CsvNotFound
  | CsvEmptyData
  | CsvParserError
  | CsvOtherError.
Arguments CsvTable {num} f.
Arguments CsvNotFound {num}.
Arguments CsvEmptyData {num}.
Arguments CsvParserError {num}.
Arguments CsvOtherError {num}.

(** The exceptions of a whole program: those of the pipeline and the two
    that only reading raises. *)
Inductive py_exn :=
  | FileNotFoundError
  | EOFError
  | Other (e : exn).

Record world (num : Type) := {
  read_csv : string → csv_read num;
  writable : string → bool
}.
Arguments read_csv {num} w filename.
Arguments writable {num} w file_path.

(** [df.to_csv(file_path, index=False)] in a world. *)
Definition to_csv {num A} (w : world num) (df : list A) (file_path : string) : result unit :=
  if writable w file_path then Ok tt else Raise IOError.

(** What a program prints and writes, in order. *)
Inductive event :=
  | ErrorReadingFiles (e : py_exn)
  | Prompt
  | InvalidInput
  | Exported (file_path : string).

(** How a program ends. *)
Inductive outcome :=
  | Returned
  | Raised (e : py_exn).

(** Lines 26-41: the table is a new object; a missing file raises
    FileNotFoundError, an empty or unparsable one ValueError, anything else
    IOError. *)
Definition read_file {num} (w : world num) (filename : string)
    (h : gmap loc (frame num)) : gmap loc (frame num) * (py_exn + loc) :=
  match read_csv w filename with
  | CsvTable f => let l := fresh (dom h) in (<[l := f]> h, inr l)
  | CsvNotFound => (h, inl FileNotFoundError)
  | CsvEmptyData => (h, inl (Other ValueError))
  | CsvParserError => (h, inl (Other ValueError))
  | CsvOtherError => (h, inl (Other IOError))
  end.

(** The three reads both [main]s start with, lines 274-276 and 76-78. *)
Definition read_files {num} (w : world num)
    : py_exn + (gmap loc (frame num) * (loc * loc * loc)) :=
  match read_file w "teams.csv" ∅ with
  | (_, inl e) => inl e
  | (h, inr teams_df) =>
      match read_file w "revenue.csv" h with
      | (_, inl e) => inl e
      | (h, inr revenue_df) =>
          match read_file w "currency.csv" h with
          | (_, inl e) => inl e
          | (h, inr currency_df) => inr (h, (teams_df, revenue_df, currency_df))
          end
      end
  end.

(** [except (FileNotFoundError, ValueError, IOError)]. *)
Definition caught (e : py_exn) : bool :=
  match e with
  | FileNotFoundError | Other ValueError | Other IOError => true
  | _ => false
  end.

(** One [export_to_csv] call of a program: the file is written and
    announced, or the exception leaves the program. *)
Definition export_then {num A} (w : world num) (df : list A) (file_path : string)
    (log : list event) (k : list event → list event * outcome) : list event * outcome :=
  match export_to_csv (to_csv w) df file_path with
  | Ok _ => k (log ++ [Exported file_path])
  | Raise e => (log, Raised (Other e))
  end.

(** [str.split(',')]. *)
Fixpoint split_comma (s : string) : list string :=
  match s with
  | EmptyString => [EmptyString]
  | String a s' =>
      if bool_decide (a = ","%char) then EmptyString :: split_comma s'
      else match split_comma s' with
           | [] => [String a EmptyString]
           | field :: fields => String a field :: fields
           end
  end.

(** The two builtins of line 49: [int], which raises on text that is no
    integer, and [str.strip]. *)
Record builtins := {
  py_int : string → option Z;
  py_strip : string → string
}.

(** Line 49: [[int(id.strip()) for id in user_input.split(',')]]. *)
Definition parse_ids (b : builtins) (user_input : string) : option (list Z) :=
  mapM (λ id, py_int b (py_strip b id)) (split_comma user_input).

(** Lines 44-52 on the lines the user types: the loop ends at the first line
    that parses; at the end of the input [input] raises EOFError. *)
Fixpoint get_sales_id_input (b : builtins) (stdin : list string)
    : list event * (py_exn + list Z * list string) :=
  match stdin with
  | [] => ([Prompt], inl EOFError)
  | user_input :: stdin' =>
      match parse_ids b user_input with
      | Some sales_id => ([Prompt], inr (sales_id, stdin'))
      | None =>
          let '(log, r) := get_sales_id_input b stdin' in
          (Prompt :: InvalidInput :: log, r)
      end
  end.

Section Programs.
Context {num : Type} {rt : Runtime num}.

(** [main] of [revenue_analysis.py], lines 271-294. *)
Definition main (w : world num) : list event * outcome :=
  match read_files w with
  | inl e => if caught e then ([ErrorReadingFiles e], Returned) else ([], Raised e)
  | inr (h, (teams_df, revenue_df, currency_df)) =>
      match bind (main_transform teams_df revenue_df currency_df) load_converted h with
      | (_, Raise e) => ([], Raised (Other e))
      | (_, Ok revenue_df) =>
          export_then w revenue_df "revenue_df.csv" [] (λ log,
          let quarterly_rev := get_quarterly_rev revenue_df in
          export_then w quarterly_rev "quarterly_rev.csv" log (λ log,
          match get_total_monthly_revenue revenue_df with
          | Raise e => (log, Raised (Other e))
          | Ok monthly_rev =>
              export_then w monthly_rev "monthly_rev.csv" log (λ log, (log, Returned))
          end))
      end
  end.

(** [main] of [detailed_rev.py], lines 72-91. *)
Definition detailed_main (b : builtins) (w : world num) (stdin : list string)
    : list event * outcome :=
  match read_files w with
  | inl e => if caught e then ([ErrorReadingFiles e], Returned) else ([], Raised e)
  | inr (h, (teams_df, revenue_df, currency_df)) =>
      match get_sales_id_input b stdin with
      | (log, inl e) => (log, Raised e)
      | (log, inr (sales_id, _)) =>
          match sales_rev sales_id revenue_df teams_df currency_df h with
          | (_, Raise e) => (log, Raised (Other e))
          | (_, Ok result) =>
              export_then w result "sales_revenue_output.csv" log (λ log, (log, Returned))
          end
      end
  end.
End Programs.

(** ** Two runtimes

    [exact_runtime] computes with integers, so its sums and products are
    exact.  [float64_runtime] computes with the machine's binary64 numbers,
    as the source does after [astype(float)]; it is faithful as long as no
    operation yields NaN.  Both read a date written YYYY-MM-DD and a number
    written as a decimal integer, and refuse other text. *)

Definition digit (a : ascii) : option Z :=
  let n := Z.of_N (Ascii.N_of_ascii a) in
  if bool_decide (48 ≤ n ≤ 57)%Z then Some (n - 48)%Z else None.

Fixpoint digits (acc : Z) (s : string) : option Z :=
  match s with
  | EmptyString => Some acc
  | String a s' => d ← digit a; digits (10 * acc + d)%Z s'
  end.

Definition parse_Z (s : string) : option Z :=
  match s with
  | EmptyString => None
  | String "-"%char EmptyString => None
  | String "-"%char s' => Z.opp <$> digits 0 s'
  | _ => digits 0 s
  end.

Definition days_in_month (y m : Z) : Z :=
  if bool_decide (m = 2)%Z then
    if bool_decide ((y mod 4 = 0 ∧ y mod 100 ≠ 0) ∨ y mod 400 = 0)%Z then 29 else 28
  else if bool_decide (m = 4 ∨ m = 6 ∨ m = 9 ∨ m = 11)%Z then 30
  else 31.

Definition parse_iso_date (s : string) : option Timestamp :=
  if bool_decide (String.length s = 10%nat ∧ String.get 4 s = Some "-"%char
                  ∧ String.get 7 s = Some "-"%char)
  then
    y ← digits 0 (String.substring 0 4 s);
    m ← digits 0 (String.substring 5 2 s);
    d ← digits 0 (String.substring 8 2 s);
    if bool_decide (1 ≤ m ≤ 12 ∧ 1 ≤ d ≤ days_in_month y m)%Z
    then Some {| ts_year := y; ts_month := m; ts_day := d; ts_time := 0 |}
    else None
  else None.

Global Instance exact_runtime : Runtime Z :=
  {| num_zero := 0%Z;
     num_add := Z.add;
     num_mul := Z.mul;
     num_of_Z := id;
     parse_num := parse_Z;
     parse_date := parse_iso_date |}.

(** The binary64 number nearest to an integer. *)
Definition float_of_Z (z : Z) : float :=
  SF2Prim (SpecFloat.binary_normalize prec emax z 0 false).

Global Instance float64_runtime : Runtime float :=
  {| num_zero := 0%float;
     num_add := PrimFloat.add;
     num_mul := PrimFloat.mul;
     num_of_Z := float_of_Z;
     parse_num := λ s, float_of_Z <$> parse_Z s;
     parse_date := parse_iso_date |}.

(** ** The currency table as the specification words it

    An ordered list of (country, currency) pairs, looked up from the top,
    with EUR for a country that is not listed. *)

Definition currency_table : list (string * string) :=
  [("US", "USD"); ("Japan", "JPY"); ("Netherlands", "EUR"); ("Spain", "EUR");
   ("Australia", "AUD"); ("UK", "GBP"); ("Brazil", "BRL"); ("Canada", "CAD");
   ("India", "INR"); ("Mexico", "MXN"); ("Singapore", "SGD")].

Fixpoint table_lookup (table : list (string * string)) (country : string) : option string :=
  match table with
  | [] => None
  | (c, code) :: table' =>
      if bool_decide (country = c) then Some code else table_lookup table' country
  end.

Definition currency_by_table (country : option string) : string :=
  match country with
  | Some c => default "EUR" (table_lookup currency_table c)
  | None => "EUR"
  end.

(** ** Sample tables *)

Definition sample_team (i : Z) (name country : string) : TeamRecord :=
  {| ID := Some i; Name := Some name; Email := Some (name +:+ "@example.com");
     Rep_Or_Director := Some "Rep"; Status := Some "Active";
     Region := Some "EMEA"; Team := Some "A"; Country := Some country;
     Currency := None |}.

Definition sample_teams : list TeamRecord :=
  [sample_team 1 "ann" "US"; sample_team 2 "bo" "Japan";
   sample_team 3 "cy" "Atlantis"; sample_team 2 "bo2" "UK"].

Definition sample_revenue : list (RevenueRecord Z) :=
  [ {| UserID := Some 1%Z; Date := DateStr "2024-01-01"; Revenue := NumInt 100 |};
    {| UserID := Some 2%Z; Date := DateStr "2024-02-05"; Revenue := NumStr "200000" |};
    {| UserID := Some 9%Z; Date := DateStr "2024-02-05"; Revenue := NumInt 5 |};
    {| UserID := Some 1%Z; Date := DateStr "2024-01-01"; Revenue := NumInt 7 |} ].

Definition sample_rates : list (ExchangeRate Z) :=
  [ {| FROM_CURRENCY := Some "JPY"; DATE := DateStr "2024-02-05"; EXCHANGE_RATE := Some 3%Z |};
    {| FROM_CURRENCY := Some "GBP"; DATE := DateStr "2024-03-01"; EXCHANGE_RATE := Some 2%Z |} ].

(** A store with the three tables as they are read from their files. *)
Definition sample_store : gmap loc (frame Z) :=
  <[1%positive := Teams sample_teams]>
    (<[2%positive := Revenues sample_revenue]>
       (<[3%positive := Rates sample_rates]> ∅)).

(** A store whose three tables have their columns and no row. *)
Definition empty_store : gmap loc (frame Z) :=
  <[1%positive := Teams []]>
    (<[2%positive := Revenues []]> (<[3%positive := Rates []]> ∅)).

(** The sample store once [get_currency_code] has run on its teams. *)
Definition sample_coded_store : gmap loc (frame Z) :=
  <[1%positive := Teams (assign_currency <$> sample_teams)]> sample_store.

(** The table [get_team] makes of the samples once the teams have their
    currency, and a store that holds it next to the rates. *)
Definition sample_joined : list (JoinedRecord Z) :=
  merge_team sample_revenue (assign_currency <$> sample_teams).

Definition sample_joined_store : gmap loc (frame Z) :=
  <[4%positive := Joined sample_joined]> (<[3%positive := Rates sample_rates]> ∅).

(** The table [convert_currency] makes of the samples. *)
Definition sample_converted : list (ConvertedRecord Z) :=
  match convert_rows sample_joined sample_rates with
  | Ok rows => rows
  | Raise _ => []
  end.



(** A sale by user 2 of the Japanese team and a sale by user 9, who is in no
    team, on the same day; the rate table has the yen rate of that day and a
    row of that day whose currency cell is empty. *)
Definition null_key_teams : list TeamRecord := [sample_team 2 "bo" "Japan"].

Definition null_key_store : gmap loc (frame Z) :=
  <[1%positive := Teams null_key_teams]>
    (<[2%positive := Revenues
         [ {| UserID := Some 2%Z; Date := DateStr "2024-02-05"; Revenue := NumInt 200000 |};
           {| UserID := Some 9%Z; Date := DateStr "2024-02-05"; Revenue := NumInt 100 |} ]]>
       (<[3%positive := Rates
            [ {| FROM_CURRENCY := Some "JPY"; DATE := DateStr "2024-02-05";
                 EXCHANGE_RATE := Some 3%Z |};
              {| FROM_CURRENCY := None; DATE := DateStr "2024-02-05";
                 EXCHANGE_RATE := Some 2%Z |} ]]> ∅)).



(** The ten currency codes of lines 74-94. *)
Definition currency_codes : list string :=
  ["USD"; "JPY"; "EUR"; "AUD"; "GBP"; "BRL"; "CAD"; "INR"; "MXN"; "SGD"].

(** A world with the sample tables in its three files, every path writable,
    and one where the teams file is missing. *)
Definition sample_files (teams : list TeamRecord) (revenue : list (RevenueRecord Z))
    (rates : list (ExchangeRate Z)) (filename : string) : csv_read Z :=
  if bool_decide (filename = "teams.csv") then CsvTable (Teams teams)
  else if bool_decide (filename = "revenue.csv") then CsvTable (Revenues revenue)
  else if bool_decide (filename = "currency.csv") then CsvTable (Rates rates)
  else CsvNotFound.

Definition sample_world : world Z :=
  {| read_csv := sample_files sample_teams sample_revenue sample_rates;
     writable := λ _, true |}.

Definition no_teams_world : world Z :=
  {| read_csv := λ filename,
       if bool_decide (filename = "teams.csv") then CsvNotFound
       else sample_files sample_teams sample_revenue sample_rates filename;
     writable := λ _, true |}.

(** A world whose teams file lists nobody who sold anything. *)
Definition strangers_world : world Z :=
  {| read_csv := sample_files [sample_team 7 "dee" "US"] sample_revenue sample_rates;
     writable := λ _, true |}.

(** Builtins that read a decimal integer between blanks. *)
Fixpoint strip_left (s : string) : string :=
  match s with
  | String " "%char s' => strip_left s'
  | _ => s
  end.

Definition strip_blanks (s : string) : string :=
  String.rev (strip_left (String.rev (strip_left s))).

Definition sample_builtins : builtins :=
  {| py_int := parse_Z; py_strip := strip_blanks |}.

(** * Facts about the library operations *)

Section result_facts.
Context {A B : Type} (f : A → result B).

Lemma result_mapM_Forall2 l l' :
  result_mapM f l = Ok l' ↔ Forall2 (λ a b, f a = Ok b) l l'.
Proof.
  revert l'. induction l as [|a l IH]; intros l'; simpl.
  - split.
    + intros [= <-]. constructor.
    + intros Hl. by inversion Hl.
  - split.
    + destruct (f a) as [b|e] eqn:Hb; simpl; [|done].
      destruct (result_mapM f l) as [bs|e] eqn:Hbs; simpl; [|done].
      intros [= <-]. constructor; [done|]. by apply IH.
    + intros Hl. inversion Hl as [|? b ? bs Hb Hbs]; subst.
      rewrite Hb. simpl. apply IH in Hbs. by rewrite Hbs.
Qed.

Lemma result_mapM_total l :
  Forall (λ a, ∃ b, f a = Ok b) l → ∃ l', result_mapM f l = Ok l'.
Proof.
  induction 1 as [|a l [b Hb] _ [bs Hbs]]; simpl.
  - by exists [].
  - exists (b :: bs). by rewrite Hb, Hbs.
Qed.

Lemma result_mapM_elem_of l l' b :
  result_mapM f l = Ok l' → b ∈ l' → ∃ a, a ∈ l ∧ f a = Ok b.
Proof.
  rewrite result_mapM_Forall2. intros Hl. revert b.
  induction Hl as [|a b' l l' Hab _ IH]; intros b Hb.
  - by apply elem_of_nil in Hb.
  - apply elem_of_cons in Hb as [->|Hb].
    + exists a. split; [left|done].
    + destruct (IH b Hb) as (a' & Ha' & Hf). exists a'. split; [by right|done].
Qed.

End result_facts.

Section merge_left_facts.
Context {A B C : Type} (on : A → B → Prop) `{!∀ a b, Decision (on a b)}.
Context (row : A → B → C) (na : B).

Lemma left_rows_unmatched right a :
  filter (on a) right = [] → left_rows on row na right a = [row a na].
Proof. unfold left_rows. by intros ->. Qed.

Lemma left_rows_length right a :
  length (left_rows on row na right a) = 1 `max` length (filter (on a) right).
Proof.
  unfold left_rows. destruct (filter (on a) right) as [|b bs]; [done|].
  rewrite length_fmap. simpl. lia.
Qed.

Lemma elem_of_left_rows right a c :
  c ∈ left_rows on row na right a ↔
    (filter (on a) right = [] ∧ c = row a na) ∨
    (∃ b, b ∈ right ∧ on a b ∧ c = row a b).
Proof.
  unfold left_rows. destruct (filter (on a) right) as [|b bs] eqn:Hf.
  - rewrite list_elem_of_singleton. split; [by left|].
    intros [[_ ->]|(b & Hb & Hab & _)]; [done|].
    assert (b ∈ filter (on a) right) as Hin by (by apply list_elem_of_filter).
    rewrite Hf in Hin. by apply elem_of_nil in Hin.
  - rewrite <-Hf, list_elem_of_fmap. split.
    + intros (b' & -> & Hb'). apply list_elem_of_filter in Hb' as [??].
      right. eauto.
    + intros [[Hnil _]|(b' & Hb' & Hab & ->)].
      * by rewrite Hnil in Hf.
      * exists b'. split; [done|]. by apply list_elem_of_filter.
Qed.

Lemma merge_left_cons a left right :
  merge_left on row na (a :: left) right =
    left_rows on row na right a ++ merge_left on row na left right.
Proof. done. Qed.

Lemma elem_of_merge_left left right c :
  c ∈ merge_left on row na left right ↔
    ∃ a, a ∈ left ∧ c ∈ left_rows on row na right a.
Proof.
  unfold merge_left. rewrite list_elem_of_bind. split.
  - intros (a & Hc & Ha). eauto.
  - intros (a & Ha & Hc). eauto.
Qed.

Lemma merge_left_length left right :
  length (merge_left on row na left right) =
    sum_list ((λ a, 1 `max` length (filter (on a) right)) <$> left).
Proof.
  induction left as [|a left IH]; [done|].
  rewrite merge_left_cons, length_app, left_rows_length, IH. done.
Qed.

Lemma merge_left_length_ge left right :
  length left ≤ length (merge_left on row na left right).
Proof.
  rewrite merge_left_length.
  induction left as [|a left IH]; [done|].
  rewrite fmap_cons. cbn [sum_list sum_list_with length]. unfold sum_list, id in *. lia.
Qed.

Lemma merge_left_length_eq left right :
  length (merge_left on row na left right) = length left ↔
    Forall (λ a, length (filter (on a) right) ≤ 1) left.
Proof.
  rewrite merge_left_length.
  induction left as [|a left IH].
  - split; [constructor|done].
  - pose proof (merge_left_length_ge left right) as Hge.
    rewrite merge_left_length in Hge.
    rewrite fmap_cons, Forall_cons, <-IH.
    cbn [sum_list sum_list_with length]. unfold sum_list, id in *. lia.
Qed.
End merge_left_facts.

(** * Facts about the pipeline *)

Section store_facts.
Context {num : Type} {rt : Runtime num}.
Implicit Types h : gmap loc (frame num).

Lemma fresh_lookup h : h !! fresh (dom h) = None.
Proof. apply not_elem_of_dom, is_fresh. Qed.

Lemma lookup_fresh_ne h l f : h !! l = Some f → l ≠ fresh (dom h).
Proof. intros Hl ->. by rewrite fresh_lookup in Hl. Qed.

Lemma bind_ok {A B} (m : M num A) (k : A → M num B) h h' a :
  m h = (h', Ok a) → bind m k h = k a h'.
Proof. unfold bind. by intros ->. Qed.


Lemma load_teams_ok h l rows :
  h !! l = Some (Teams rows) → load_teams l h = (h, Ok rows).
Proof. intros Hl. unfold load_teams, bind, load. by rewrite Hl. Qed.

Lemma load_revenues_ok h l rows :
  h !! l = Some (Revenues rows) → load_revenues l h = (h, Ok rows).
Proof. intros Hl. unfold load_revenues, bind, load. by rewrite Hl. Qed.

Lemma load_rates_ok h l rows :
  h !! l = Some (Rates rows) → load_rates l h = (h, Ok rows).
Proof. intros Hl. unfold load_rates, bind, load. by rewrite Hl. Qed.

Lemma load_joined_ok h l rows :
  h !! l = Some (Joined rows) → load_joined l h = (h, Ok rows).
Proof. intros Hl. unfold load_joined, bind, load. by rewrite Hl. Qed.

Lemma load_converted_ok h l rows :
  h !! l = Some (Converted rows) → load_converted l h = (h, Ok rows).
Proof. intros Hl. unfold load_converted, bind, load. by rewrite Hl. Qed.

(** What each call does to a store that holds the tables it expects. *)

Lemma get_currency_code_spec h teams_df teams :
  h !! teams_df = Some (Teams teams) →
  get_currency_code teams_df h =
    (<[teams_df := Teams (assign_currency <$> teams)]> h, Ok teams_df).
Proof.
  intros Ht. unfold get_currency_code.
  by rewrite (bind_ok _ _ _ _ _ (load_teams_ok _ _ _ Ht)).
Qed.

Lemma get_team_spec h revenue_df teams_df revenue teams :
  h !! revenue_df = Some (Revenues revenue) →
  h !! teams_df = Some (Teams teams) →
  get_team revenue_df teams_df h =
    (<[fresh (dom h) := Joined (merge_team revenue teams)]> h, Ok (fresh (dom h))).
Proof.
  intros Hr Ht. unfold get_team.
  rewrite (bind_ok _ _ _ _ _ (load_revenues_ok _ _ _ Hr)).
  by rewrite (bind_ok _ _ _ _ _ (load_teams_ok _ _ _ Ht)).
Qed.

Lemma convert_currency_spec h revenue_df currency_df revenue currency
    revenue1 currency1 revenue2 :
  h !! revenue_df = Some (Joined revenue) →
  h !! currency_df = Some (Rates currency) →
  result_mapM parse_Date revenue = Ok revenue1 →
  result_mapM parse_DATE currency = Ok currency1 →
  result_mapM float_Revenue revenue1 = Ok revenue2 →
  let h' := converted_store h revenue_df currency_df revenue2 currency1 in
  convert_currency revenue_df currency_df h =
    (<[fresh (dom h') := Converted (merge_rates revenue2 currency1)]> h',
     Ok (fresh (dom h'))).
Proof.
  intros Hr Hc H1 H2 H3 h'.
  assert (revenue_df ≠ currency_df) as Hne by (intros ->; congruence).
  unfold convert_currency.
  rewrite (bind_ok _ _ _ _ _ (load_joined_ok _ _ _ Hr)).
  rewrite (bind_ok _ _ h h revenue1) by (unfold lift; by rewrite H1).
  rewrite (bind_ok _ _ _ _ tt eq_refl).
  erewrite (bind_ok (load_rates _)); cycle 1.
  { apply load_rates_ok. by rewrite lookup_insert_ne. }
  erewrite (bind_ok (lift _)) by (unfold lift; by rewrite H2).
  rewrite (bind_ok _ _ _ _ tt eq_refl).
  erewrite (bind_ok (load_joined _)); cycle 1.
  { apply load_joined_ok. by rewrite lookup_insert_ne, lookup_insert_eq. }
  erewrite (bind_ok (lift _)) by (unfold lift; by rewrite H3).
  rewrite (bind_ok _ _ _ _ tt eq_refl).
  erewrite (bind_ok (load_joined _)) by (apply load_joined_ok, lookup_insert_eq).
  erewrite (bind_ok (load_rates _)); cycle 1.
  { apply load_rates_ok. by rewrite lookup_insert_ne, lookup_insert_eq. }
  unfold alloc. subst h'. unfold converted_store.
  assert (<[revenue_df:=Joined revenue2]>
            (<[currency_df:=Rates currency1]> (<[revenue_df:=Joined revenue1]> h))
          = <[revenue_df:=Joined revenue2]> (<[currency_df:=Rates currency1]> h))
    as ->; [|done].
  rewrite (insert_insert_ne _ currency_df revenue_df) by done.
  by rewrite insert_insert_eq.
Qed.
Lemma convert_currency_rows h revenue_df currency_df revenue currency rows :
  h !! revenue_df = Some (Joined revenue) →
  h !! currency_df = Some (Rates currency) →
  convert_rows revenue currency = Ok rows →
  ∃ h' out,
    convert_currency revenue_df currency_df h = (h', Ok out)
    ∧ h' !! out = Some (Converted rows).
Proof.
  intros Hr Hc. unfold convert_rows.
  destruct (result_mapM parse_Date revenue) as [revenue1|] eqn:H1; [|done].
  destruct (result_mapM parse_DATE currency) as [currency1|] eqn:H2; [|done].
  simpl. destruct (result_mapM float_Revenue revenue1) as [revenue2|] eqn:H3; [|done].
  intros [= <-]. eexists _, _. split; [by eapply convert_currency_spec|].
  by rewrite lookup_insert_eq.
Qed.

End store_facts.

(** * The claims *)

Section currency_assigner.
Context {num : Type} {rt : Runtime num}.
Implicit Types h : gmap loc (frame num).

Lemma country_to_currency_by_table country :
  country_to_currency country = currency_by_table country.
Proof.
  destruct country as [c|]; [|done].
  unfold country_to_currency, currency_by_table, currency_table, table_lookup.
  repeat (case_bool_decide; simplify_eq/=; try done).
Qed.

(** C2.  On a store that holds a teams table, [get_currency_code] returns
    without raising, and the table it leaves has, row for row, the currency
    that the ordered table US→USD, Japan→JPY, Netherlands→EUR, Spain→EUR,
    Australia→AUD, UK→GBP, Brazil→BRL, Canada→CAD, India→INR, Mexico→MXN,
    Singapore→SGD gives for the row's country, first match first, and EUR for
    every country outside the table (a missing country included). *)
Theorem get_currency_code_table h teams_df teams :
  h !! teams_df = Some (Teams teams) →
  ∃ teams',
    get_currency_code teams_df h = (<[teams_df := Teams teams']> h, Ok teams_df)
    ∧ Forall2 (λ t t', Currency t' = Some (currency_by_table (Country t))) teams teams'
    ∧ (λ c, country_to_currency (Some c)) <$>
        ["US"; "Japan"; "Netherlands"; "Spain"; "Australia"; "UK"; "Brazil";
         "Canada"; "India"; "Mexico"; "Singapore"]
      = ["USD"; "JPY"; "EUR"; "EUR"; "AUD"; "GBP"; "BRL"; "CAD"; "INR"; "MXN"; "SGD"]
    ∧ ∀ country, country ∉ (Some <$> currency_table.*1) →
        country_to_currency country = "EUR".
Proof.
  intros Ht. exists (assign_currency <$> teams). split_and!.
  - by apply get_currency_code_spec.
  - apply Forall2_fmap_r, Forall_Forall2_diag, Forall_forall. intros t _.
    simpl. by rewrite country_to_currency_by_table.
  - done.
  - intros [c|] Hc; [|done].
    unfold country_to_currency.
    repeat (case_bool_decide as Heq;
            [exfalso; apply Hc; rewrite Heq;
             refine (bool_decide_unpack _ _); vm_compute; exact I
            |clear Heq; simpl]).
    done.
Qed.
End currency_assigner.

Lemma get_currency_code_table_witness :
  sample_store !! 1%positive = Some (Teams sample_teams)
  ∧ ∃ teams',
      get_currency_code 1%positive sample_store
        = (<[1%positive := Teams teams']> sample_store, Ok 1%positive)
      ∧ Currency <$> teams' = [Some "USD"; Some "JPY"; Some "EUR"; Some "GBP"].
Proof.
  split; [reflexivity|].
  destruct (get_currency_code_table sample_store 1%positive sample_teams eq_refl)
    as (teams' & Hcall & Hcur & _).
  exists teams'. split; [exact Hcall|].
  repeat match goal with
         | H : Forall2 _ _ _ |- _ => inversion H; clear H; simplify_eq/=
         end.
  repeat f_equal; assumption.
Defined.

Section conversions.
Context {num : Type} {rt : Runtime num}.

Lemma to_datetime_is_datetime c d : to_datetime c = Ok d → is_datetime d.
Proof.
  destruct c as [|s|t]; simpl.
  - by intros [= <-].
  - destruct (parse_date s); [by intros [= <-]|done].
  - by intros [= <-].
Qed.

Lemma astype_float_is_float (c x : num_cell num) : astype_float c = Ok x → is_float x.
Proof.
  destruct c as [|z|s|y]; simpl; try by intros [= <-].
  destruct (parse_num s); [by intros [= <-]|done].
Qed.

Lemma is_float_float_cell (x : num_cell num) : is_float x → x = float_cell (float_of x).
Proof. by destruct x. Qed.

Lemma parse_Date_Ok (j j' : JoinedRecord num) :
  parse_Date j = Ok j' ↔ ∃ d, to_datetime (Date (j_rev j)) = Ok d ∧ j' = set_Date d j.
Proof.
  unfold parse_Date. destruct (to_datetime (Date (j_rev j))) as [d|e]; simpl.
  - split; [intros [= <-]; eauto|]. by intros (d' & [= <-] & ->).
  - split; [done|]. by intros (d' & ? & _).
Qed.

Lemma parse_DATE_Ok (q q' : ExchangeRate num) :
  parse_DATE q = Ok q' ↔ ∃ d, to_datetime (DATE q) = Ok d ∧ q' = set_DATE d q.
Proof.
  unfold parse_DATE. destruct (to_datetime (DATE q)) as [d|e]; simpl.
  - split; [intros [= <-]; eauto|]. by intros (d' & [= <-] & ->).
  - split; [done|]. by intros (d' & ? & _).
Qed.

Lemma float_Revenue_Ok (j j' : JoinedRecord num) :
  float_Revenue j = Ok j' ↔
    ∃ x, astype_float (Revenue (j_rev j)) = Ok x ∧ j' = set_Revenue x j.
Proof.
  unfold float_Revenue. destruct (astype_float (Revenue (j_rev j))) as [x|e]; simpl.
  - split; [intros [= <-]; eauto|]. by intros (x' & [= <-] & ->).
  - split; [done|]. by intros (x' & ? & _).
Qed.

Lemma converted_rows (revenue revenue1 revenue2 : list (JoinedRecord num)) :
  result_mapM parse_Date revenue = Ok revenue1 →
  result_mapM float_Revenue revenue1 = Ok revenue2 →
  Forall2 converted_row revenue revenue2.
Proof.
  rewrite !result_mapM_Forall2. intros H1 H2.
  revert revenue2 H2. induction H1 as [|j j1 l l1 Hj _ IH]; intros revenue2 H2.
  - inversion H2. constructor.
  - inversion H2 as [|? j2 ? l2 Hj2 Hl2]; subst. constructor; [|by apply IH].
    apply parse_Date_Ok in Hj as (d & Hd & ->).
    apply float_Revenue_Ok in Hj2 as (x & Hx & ->). done.
Qed.

Lemma converted_rows_elem_of (revenue revenue2 : list (JoinedRecord num)) j2 :
  Forall2 converted_row revenue revenue2 → j2 ∈ revenue2 →
  ∃ j, j ∈ revenue ∧ converted_row j j2.
Proof.
  induction 1 as [|j j' l l' Hj _ IH]; intros Hin.
  - by apply elem_of_nil in Hin.
  - apply elem_of_cons in Hin as [->|Hin].
    + exists j. split; [left|done].
    + destruct (IH Hin) as (j0 & ? & ?). exists j0. split; [by right|done].
Qed.
End conversions.

Section joins.
Context {num : Type} {rt : Runtime num}.
Implicit Types h : gmap loc (frame num).

Lemma elem_of_merge_team (revenue : list (RevenueRecord num)) teams j :
  j ∈ merge_team revenue teams ↔
    ∃ r, r ∈ revenue ∧ j_rev j = r
         ∧ ((filter (team_key r) teams = [] ∧ j_team j = team_NA)
            ∨ (j_team j ∈ teams ∧ team_key r (j_team j))).
Proof.
  unfold merge_team. rewrite elem_of_merge_left. split.
  - intros (r & Hr & Hj). exists r. split; [done|].
    apply elem_of_left_rows in Hj as [[Hnil ->]|(t & Ht & Hk & ->)]; simpl; eauto.
  - intros (r & Hr & <- & Hj). exists (j_rev j). split; [done|].
    apply elem_of_left_rows. destruct j as [r' t']; simpl in *.
    destruct Hj as [[Hnil ->]|[Ht Hk]]; [by left|].
    right. by exists t'.
Qed.

Lemma elem_of_merge_rates (revenue : list (JoinedRecord num)) currency c :
  c ∈ merge_rates revenue currency ↔
    ∃ j, j ∈ revenue ∧ c_joined c = j
         ∧ Revenue_USD c = revenue_usd j (c_rate c)
         ∧ ((filter (rate_key j) currency = [] ∧ c_rate c = rate_NA)
            ∨ (c_rate c ∈ currency ∧ rate_key j (c_rate c))).
Proof.
  unfold merge_rates. rewrite elem_of_merge_left. split.
  - intros (j & Hj & Hc). exists j. split; [done|].
    apply elem_of_left_rows in Hc as [[Hnil ->]|(q & Hq & Hk & ->)]; simpl; eauto 10.
  - intros (j & Hj & <- & Husd & Hc). exists (c_joined c). split; [done|].
    apply elem_of_left_rows. destruct c as [j' q' u']; simpl in *. subst u'.
    destruct Hc as [[Hnil ->]|[Hq Hk]]; [by left|].
    right. by exists q'.
Qed.

(** C3.  On a store that holds a revenue table and a teams table, [get_team]
    returns a new table with at least as many rows as the revenue table, and
    exactly as many if and only if no revenue row matches more than one team;
    a revenue row counts once per matching team and once when it has none;
    every revenue row is the revenue part of some output row; and a revenue
    row without a matching team appears with every team column missing and
    in no other way. *)
Theorem get_team_rows h revenue_df teams_df revenue teams :
  h !! revenue_df = Some (Revenues revenue) →
  h !! teams_df = Some (Teams teams) →
  let rows := merge_team revenue teams in
  ∃ out,
    get_team revenue_df teams_df h = (<[out := Joined rows]> h, Ok out)
    ∧ h !! out = None
    ∧ length revenue ≤ length rows
    ∧ (length rows = length revenue ↔
         ∀ r, r ∈ revenue → length (filter (team_key r) teams) ≤ 1)
    ∧ length rows =
        sum_list ((λ r, 1 `max` length (filter (team_key r) teams)) <$> revenue)
    ∧ (∀ r, r ∈ revenue → ∃ j, j ∈ rows ∧ j_rev j = r)
    ∧ (∀ r t, r ∈ revenue → t ∈ teams → team_key r t → team_row r t ∈ rows)
    ∧ (∀ r, r ∈ revenue → filter (team_key r) teams = [] →
         team_row r team_NA ∈ rows
         ∧ ∀ j, j ∈ rows → j_rev j = r → j_team j = team_NA).
Proof.
  intros Hr Ht rows. exists (fresh (dom h)). split_and!.
  - by apply get_team_spec.
  - apply fresh_lookup.
  - apply merge_left_length_ge.
  - unfold rows, merge_team. rewrite merge_left_length_eq, Forall_forall. done.
  - apply merge_left_length.
  - intros r Hin. destruct (filter (team_key r) teams) as [|t ts] eqn:Hf.
    + exists (team_row r team_NA). split; [|done].
      apply elem_of_merge_team. exists r. simpl. eauto.
    + exists (team_row r t). split; [|done].
      assert (t ∈ filter (team_key r) teams) as Hin' by (rewrite Hf; left).
      apply list_elem_of_filter in Hin' as [??].
      apply elem_of_merge_team. exists r. simpl. eauto.
  - intros r t Hin Htin Hk. apply elem_of_merge_team. exists r. simpl. eauto.
  - intros r Hin Hf. split.
    + apply elem_of_merge_team. exists r. simpl. eauto.
    + intros j Hj Hjr. apply elem_of_merge_team in Hj as (r' & _ & Hr' & Hcase).
      assert (r' = r) as -> by congruence.
      destruct Hcase as [[_ ?]|[Hjt Hk]]; [done|].
      assert (j_team j ∈ filter (team_key r) teams) as Hin'
        by (by apply list_elem_of_filter).
      rewrite Hf in Hin'. by apply elem_of_nil in Hin'.
Qed.
End joins.

Lemma get_team_rows_witness :
  (sample_store !! 2%positive = Some (Revenues sample_revenue)
   ∧ sample_store !! 1%positive = Some (Teams sample_teams))
  ∧ ∃ out,
      get_team 2%positive 1%positive sample_store
        = (<[out := Joined (merge_team sample_revenue sample_teams)]> sample_store, Ok out)
      ∧ length sample_revenue = 4
      ∧ length (merge_team sample_revenue sample_teams) = 5.
Proof.
  split; [split; reflexivity|].
  destruct (get_team_rows sample_store 2%positive 1%positive sample_revenue
              sample_teams eq_refl eq_refl) as (out & Hcall & _).
  exists out. split; [exact Hcall|]. split; reflexivity.
Defined.

Section converter.
Context {num : Type} {rt : Runtime num}.
Implicit Types h : gmap loc (frame num).

Lemma converted_rows_elem_of_l (revenue revenue2 : list (JoinedRecord num)) j :
  Forall2 converted_row revenue revenue2 → j ∈ revenue →
  ∃ j2, j2 ∈ revenue2 ∧ converted_row j j2.
Proof.
  induction 1 as [|j0 j' l l' Hj _ IH]; intros Hin.
  - by apply elem_of_nil in Hin.
  - apply elem_of_cons in Hin as [->|Hin].
    + exists j'. split; [left|done].
    + destruct (IH Hin) as (j2 & ? & ?). exists j2. split; [by right|done].
Qed.

Lemma float_Revenue_is_float (revenue1 revenue2 : list (JoinedRecord num)) j :
  result_mapM float_Revenue revenue1 = Ok revenue2 → j ∈ revenue2 →
  is_float (Revenue (j_rev j)).
Proof.
  intros Hm Hj. destruct (result_mapM_elem_of _ _ _ _ Hm Hj) as (j1 & _ & Hf).
  apply float_Revenue_Ok in Hf as (x & Hx & ->). simpl.
  by eapply astype_float_is_float.
Qed.

Lemma float_mul_None_r (a : option num) : float_mul a None = None.
Proof. by destruct a. Qed.

Lemma merge_rates_keeps (revenue : list (JoinedRecord num)) currency j :
  j ∈ revenue →
  ∃ c, c ∈ merge_rates revenue currency ∧ c_joined c = j
       ∧ (filter (rate_key j) currency = [] →
            c_rate c = rate_NA ∧ Revenue_USD c = revenue_usd j rate_NA).
Proof.
  intros Hj. destruct (filter (rate_key j) currency) as [|q qs] eqn:Hf.
  - exists (rate_row j rate_NA). split; [|done].
    apply elem_of_merge_rates. exists j. simpl. eauto 10.
  - exists (rate_row j q). split; [|done].
    assert (q ∈ filter (rate_key j) currency) as Hq by (rewrite Hf; left).
    apply list_elem_of_filter in Hq as [??].
    apply elem_of_merge_rates. exists j. simpl. eauto 10.
Qed.

(** C1.  On a store that holds a joined revenue table and a rate table whose
    date and revenue cells all convert, [convert_currency] returns a table
    without raising, whatever matches.  Every converted revenue row is the
    joined part of some row of it, and every row of it satisfies: if its
    Currency is USD, Revenue_USD is its Revenue, cell for cell; otherwise, if
    exactly one rate row has its (Currency, Date) key, Revenue_USD is
    Revenue times that row's EXCHANGE_RATE; otherwise, if no rate row has the
    key, Revenue_USD is missing. *)
Theorem convert_currency_revenue_usd h revenue_df currency_df revenue currency
    revenue1 currency1 revenue2 :
  h !! revenue_df = Some (Joined revenue) →
  h !! currency_df = Some (Rates currency) →
  result_mapM parse_Date revenue = Ok revenue1 →
  result_mapM parse_DATE currency = Ok currency1 →
  result_mapM float_Revenue revenue1 = Ok revenue2 →
  let rows := merge_rates revenue2 currency1 in
  ∃ h' out,
    convert_currency revenue_df currency_df h = (h', Ok out)
    ∧ h' !! out = Some (Converted rows)
    ∧ (∀ j, j ∈ revenue2 → ∃ c, c ∈ rows ∧ c_joined c = j)
    ∧ ∀ c, c ∈ rows →
        c_joined c ∈ revenue2
        ∧ (Currency (c_team c) = Some "USD" →
             Revenue (c_rev c) = float_cell (Revenue_USD c))
        ∧ (Currency (c_team c) ≠ Some "USD" →
             ∀ q, filter (rate_key (c_joined c)) currency1 = [q] →
               c_rate c = q
               ∧ Revenue_USD c =
                   float_mul (float_of (Revenue (c_rev c))) (EXCHANGE_RATE q))
        ∧ (Currency (c_team c) ≠ Some "USD" →
             filter (rate_key (c_joined c)) currency1 = [] →
               c_rate c = rate_NA ∧ Revenue_USD c = None).
Proof.
  intros Hr Hc H1 H2 H3 rows.
  eexists _, _. split; [by eapply convert_currency_spec|].
  split; [by rewrite lookup_insert_eq|]. split.
  { intros j Hj. destruct (merge_rates_keeps _ currency1 _ Hj) as (c & ? & ? & _).
    eauto. }
  intros c Hin. apply elem_of_merge_rates in Hin as (j & Hj & Hcj & Husd & Hcase).
  unfold c_team, c_rev. rewrite Hcj. unfold revenue_usd in Husd.
  split_and!; [done|..].
  - intros Hcur. rewrite Husd, bool_decide_eq_true_2 by done.
    apply is_float_float_cell. by eapply float_Revenue_is_float.
  - intros Hcur q Hf. rewrite bool_decide_eq_false_2 in Husd by done.
    destruct Hcase as [[Hnil _]|[Hq Hk]]; [by rewrite Hnil in Hf|].
    assert (c_rate c ∈ filter (rate_key j) currency1) as Hin
      by (by apply list_elem_of_filter).
    rewrite Hf in Hin. apply list_elem_of_singleton in Hin. by rewrite <-Hin.
  - intros Hcur Hf. rewrite bool_decide_eq_false_2 in Husd by done.
    destruct Hcase as [[_ Hna]|[Hq Hk]].
    + split; [done|]. rewrite Husd, Hna. apply float_mul_None_r.
    + assert (c_rate c ∈ filter (rate_key j) currency1) as Hin
        by (by apply list_elem_of_filter).
      rewrite Hf in Hin. by apply elem_of_nil in Hin.
Qed.

(** C4.  Neither join drops a revenue row.  [get_team] returns a table in
    which every revenue row is the revenue part of some row, with the team
    columns all missing when no team matches.  [convert_currency] returns a
    table in which every row of its first argument, with its two cells
    converted and nothing else changed, is the joined part of some row,
    with the rate columns all missing when no rate matches and Revenue_USD
    computed from the missing rate. *)
Theorem joins_keep_every_row h revenue_df teams_df revenue teams
    h2 joined_df currency_df joined currency joined1 currency1 joined2 :
  h !! revenue_df = Some (Revenues revenue) →
  h !! teams_df = Some (Teams teams) →
  h2 !! joined_df = Some (Joined joined) →
  h2 !! currency_df = Some (Rates currency) →
  result_mapM parse_Date joined = Ok joined1 →
  result_mapM parse_DATE currency = Ok currency1 →
  result_mapM float_Revenue joined1 = Ok joined2 →
  (∃ out,
     get_team revenue_df teams_df h
       = (<[out := Joined (merge_team revenue teams)]> h, Ok out)
     ∧ ∀ r, r ∈ revenue →
         ∃ j, j ∈ merge_team revenue teams ∧ j_rev j = r
              ∧ (filter (team_key r) teams = [] → j_team j = team_NA))
  ∧ (∃ h2' out,
       convert_currency joined_df currency_df h2 = (h2', Ok out)
       ∧ h2' !! out = Some (Converted (merge_rates joined2 currency1))
       ∧ ∀ j, j ∈ joined →
           ∃ c, c ∈ merge_rates joined2 currency1
                ∧ converted_row j (c_joined c)
                ∧ (filter (rate_key (c_joined c)) currency1 = [] →
                     c_rate c = rate_NA
                     ∧ Revenue_USD c = revenue_usd (c_joined c) rate_NA)).
Proof.
  intros Hr Ht Hj Hc H1 H2 H3. split.
  - exists (fresh (dom h)). split; [by apply get_team_spec|].
    intros r Hin. destruct (filter (team_key r) teams) as [|t ts] eqn:Hf.
    + exists (team_row r team_NA). split_and!; [|done..].
      apply elem_of_merge_team. exists r. simpl. eauto.
    + exists (team_row r t). split_and!; [|done..].
      assert (t ∈ filter (team_key r) teams) as Hin' by (rewrite Hf; left).
      apply list_elem_of_filter in Hin' as [??].
      apply elem_of_merge_team. exists r. simpl. eauto.
  - eexists _, _. split; [by eapply convert_currency_spec|].
    split; [by rewrite lookup_insert_eq|].
    intros j Hin. pose proof (converted_rows _ _ _ H1 H3) as Hall.
    destruct (converted_rows_elem_of_l _ _ _ Hall Hin) as (j2 & Hj2 & Hconv).
    destruct (merge_rates_keeps _ currency1 _ Hj2) as (c & Hcin & Hcj & Hna).
    exists c. rewrite Hcj. done.
Qed.
End converter.

Lemma convert_currency_revenue_usd_witness :
  ∃ revenue1 currency1 revenue2,
    (sample_joined_store !! 4%positive = Some (Joined sample_joined)
     ∧ sample_joined_store !! 3%positive = Some (Rates sample_rates)
     ∧ result_mapM parse_Date sample_joined = Ok revenue1
     ∧ result_mapM parse_DATE sample_rates = Ok currency1
     ∧ result_mapM float_Revenue revenue1 = Ok revenue2)
    ∧ ∃ h' out,
        convert_currency 4%positive 3%positive sample_joined_store = (h', Ok out)
        ∧ h' !! out = Some (Converted (merge_rates revenue2 currency1))
        ∧ Revenue_USD <$> merge_rates revenue2 currency1
          = [Some 100%Z; Some 600000%Z; None; None; Some 7%Z].
Proof.
  edestruct (convert_currency_revenue_usd sample_joined_store 4%positive 3%positive
               sample_joined sample_rates)
    as (h' & out & Hcall & Hout & _); [reflexivity..|].
  eexists _, _, _. split; [repeat split; reflexivity|].
  exists h', out. split; [exact Hcall|]. split; [exact Hout|]. reflexivity.
Defined.

Lemma joins_keep_every_row_witness :
  ∃ joined1 currency1 joined2,
    (sample_store !! 2%positive = Some (Revenues sample_revenue)
     ∧ sample_store !! 1%positive = Some (Teams sample_teams)
     ∧ sample_joined_store !! 4%positive = Some (Joined sample_joined)
     ∧ sample_joined_store !! 3%positive = Some (Rates sample_rates)
     ∧ result_mapM parse_Date sample_joined = Ok joined1
     ∧ result_mapM parse_DATE sample_rates = Ok currency1
     ∧ result_mapM float_Revenue joined1 = Ok joined2)
    ∧ (∃ out,
         get_team 2%positive 1%positive sample_store
           = (<[out := Joined (merge_team sample_revenue sample_teams)]> sample_store,
              Ok out))
    ∧ (∃ h2' out,
         convert_currency 4%positive 3%positive sample_joined_store = (h2', Ok out)
         ∧ h2' !! out = Some (Converted (merge_rates joined2 currency1))
         ∧ length sample_joined = 5
         ∧ length (merge_rates joined2 currency1) = 5).
Proof.
  edestruct (joins_keep_every_row sample_store 2%positive 1%positive sample_revenue
               sample_teams sample_joined_store 4%positive 3%positive sample_joined
               sample_rates)
    as [(out & Hteam & _) (h2' & out2 & Hcall & Hout & _)]; [reflexivity..|].
  eexists _, _, _. split; [repeat split; reflexivity|].
  split; [by exists out|].
  exists h2', out2. split; [exact Hcall|]. split; [exact Hout|]. split; reflexivity.
Defined.

Section in_place.
Context {num : Type} {rt : Runtime num}.
Implicit Types h : gmap loc (frame num).



End in_place.


Section groupby_facts.
Context {A K : Type} `{!EqDecision K}.
Context (le : relation K) `{!∀ x y, Decision (le x y)} (key : A → option K).

Lemma elem_of_groupby df k g :
  (k, g) ∈ groupby le key df ↔
    (∃ r, r ∈ df ∧ key r = Some k) ∧ g = filter (λ r, key r = Some k) df.
Proof.
  unfold groupby. rewrite list_elem_of_fmap. split.
  - intros (k' & [= -> ->] & Hk). split; [|done].
    rewrite merge_sort_Permutation, elem_of_remove_dups, list_elem_of_omap in Hk.
    done.
  - intros [Hk ->]. exists k. split; [done|].
    by rewrite merge_sort_Permutation, elem_of_remove_dups, list_elem_of_omap.
Qed.

Lemma groupby_keys_NoDup df : NoDup (groupby le key df).*1.
Proof.
  unfold groupby. rewrite <-list_fmap_compose.
  rewrite (list_fmap_ext _ id) by done. rewrite list_fmap_id.
  rewrite merge_sort_Permutation. apply NoDup_remove_dups.
Qed.


(** Rows without a key are in no group: leaving them out changes nothing. *)
Lemma groupby_dropna (P : A → Prop) `{!∀ r, Decision (P r)} df :
  (∀ r, r ∈ df → ¬ P r → key r = None) →
  groupby le key (filter P df) = groupby le key df.
Proof.
  intros Hna. unfold groupby.
  assert (omap key (filter P df) = omap key df) as ->.
  { induction df as [|r df IH]; [done|].
    assert (omap key (filter P df) = omap key df) as IH'
      by (apply IH; intros r' ?; apply Hna; by right).
    destruct (decide (P r)) as [Hr|Hr].
    - rewrite filter_cons_True by done. csimpl. by rewrite IH'.
    - rewrite filter_cons_False by done. csimpl.
      rewrite (Hna r) by (done || left). done. }
  apply list_fmap_ext. intros _ k _. f_equal.
  induction df as [|r df IH]; [done|].
  assert (filter (λ r, key r = Some k) (filter P df)
          = filter (λ r, key r = Some k) df) as IH'
    by (apply IH; intros r' ?; apply Hna; by right).
  destruct (decide (P r)) as [Hr|Hr].
  - rewrite (filter_cons_True P) by done.
    destruct (decide (key r = Some k)) as [Hk|Hk].
    + rewrite !(filter_cons_True (λ r, key r = Some k)) by done. by rewrite IH'.
    + rewrite !(filter_cons_False (λ r, key r = Some k)) by done. done.
  - rewrite (filter_cons_False P) by done.
    rewrite (filter_cons_False (λ r, key r = Some k)); [done|].
    rewrite (Hna r) by (done || left). done.
Qed.

Lemma groupby_not_in df r k g :
  key r = None → (k, g) ∈ groupby le key df → r ∉ g.
Proof.
  intros Hr. rewrite elem_of_groupby. intros [_ ->] Hin.
  apply list_elem_of_filter in Hin as [Hk _]. congruence.
Qed.
End groupby_facts.

Section sums.
Context {num : Type} {rt : Runtime num}.






(** The rows of each aggregate, read off its groups. *)



Lemma with_Month_rows (rows : list (ConvertedRecord num)) tagged :
  result_mapM with_Month rows = Ok tagged →
  tagged = (λ c, (month_of c, c)) <$> rows.
Proof.
  rewrite result_mapM_Forall2.
  induction 1 as [|c [m c'] l l' Hc _ IH]; [done|]. csimpl. rewrite <-IH. f_equal.
  unfold with_Month, month_of in *.
  destruct (to_datetime (Date (c_rev c))); simpl in *; congruence.
Qed.

Lemma with_Month_total (rows : list (ConvertedRecord num)) :
  Forall (λ c, ∃ d, to_datetime (Date (c_rev c)) = Ok d) rows →
  result_mapM with_Month rows = Ok ((λ c, (month_of c, c)) <$> rows).
Proof.
  intros Hall. destruct (result_mapM_total with_Month rows) as [tagged Ht].
  - eapply Forall_impl; [done|]. intros c [d Hd]. unfold with_Month.
    rewrite Hd. simpl. eauto.
  - rewrite Ht. f_equal. by apply with_Month_rows.
Qed.

End sums.

Section aggregator.
Context {num : Type} {rt : Runtime num}.



End aggregator.



Section unmatched.
Context {num : Type} {rt : Runtime num}.
Implicit Types h : gmap loc (frame num).

(** [get_team] and then [convert_currency] on the table it returned. *)
Lemma get_team_convert_spec h revenue_df teams_df currency_df revenue teams currency
    joined1 currency1 joined2 :
  h !! revenue_df = Some (Revenues revenue) →
  h !! teams_df = Some (Teams teams) →
  h !! currency_df = Some (Rates currency) →
  result_mapM parse_Date (merge_team revenue teams) = Ok joined1 →
  result_mapM parse_DATE currency = Ok currency1 →
  result_mapM float_Revenue joined1 = Ok joined2 →
  ∃ joined_df h1 out h2,
    get_team revenue_df teams_df h = (h1, Ok joined_df)
    ∧ convert_currency joined_df currency_df h1 = (h2, Ok out)
    ∧ h2 !! out = Some (Converted (merge_rates joined2 currency1)).
Proof.
  intros Hr Ht Hc H1 H2 H3.
  eexists _, _, _, _. split; [by apply get_team_spec|]. split.
  - eapply convert_currency_spec; [apply lookup_insert_eq| |done..].
    rewrite lookup_insert_ne; [done|]. symmetry. by eapply lookup_fresh_ne.
  - by rewrite lookup_insert_eq.
Qed.

Lemma team_key_filter (r r' : RevenueRecord num) (teams : list TeamRecord) :
  UserID r = UserID r' → filter (team_key r) teams = filter (team_key r') teams.
Proof.
  intros Hu. apply list_filter_iff. intros t. unfold team_key. by rewrite Hu.
Qed.

(** A converted row comes from a revenue row with the same UserID, through a
    joined row with the same team columns. *)
Lemma converted_row_origin (revenue : list (RevenueRecord num)) teams
    joined1 joined2 currency1 c :
  result_mapM parse_Date (merge_team revenue teams) = Ok joined1 →
  result_mapM float_Revenue joined1 = Ok joined2 →
  c ∈ merge_rates joined2 currency1 →
  ∃ j, j ∈ merge_team revenue teams ∧ j_rev j ∈ revenue
       ∧ UserID (c_rev c) = UserID (j_rev j) ∧ c_team c = j_team j.
Proof.
  intros H1 H3 Hc. apply elem_of_merge_rates in Hc as (j2 & Hj2 & Hcj & _).
  pose proof (converted_rows _ _ _ H1 H3) as Hall.
  destruct (converted_rows_elem_of _ _ _ Hall Hj2) as (j & Hj & _ & _ & Hu & Hteam).
  exists j. unfold c_rev, c_team. rewrite Hcj. split_and!; [done| |done..].
  apply elem_of_merge_team in Hj as (r & Hr & <- & _). done.
Qed.

Lemma unmatched_team_NA (revenue : list (RevenueRecord num)) teams
    joined1 joined2 currency1 c :
  result_mapM parse_Date (merge_team revenue teams) = Ok joined1 →
  result_mapM float_Revenue joined1 = Ok joined2 →
  c ∈ merge_rates joined2 currency1 →
  filter (team_key (c_rev c)) teams = [] →
  c_team c = team_NA.
Proof.
  intros H1 H3 Hc Hf.
  destruct (converted_row_origin _ _ _ _ _ _ H1 H3 Hc) as (j & Hj & _ & Hu & ->).
  apply elem_of_merge_team in Hj as (r & _ & <- & Hcase).
  destruct Hcase as [[_ ?]|[Hin Hk]]; [done|].
  rewrite (team_key_filter _ (j_rev j)) in Hf by done.
  assert (j_team j ∈ filter (team_key (j_rev j)) teams) as Hin'
    by (by apply list_elem_of_filter).
  rewrite Hf in Hin'. by apply elem_of_nil in Hin'.
Qed.

Lemma every_revenue_row_converted (revenue : list (RevenueRecord num)) teams
    joined1 joined2 currency1 r :
  result_mapM parse_Date (merge_team revenue teams) = Ok joined1 →
  result_mapM float_Revenue joined1 = Ok joined2 →
  r ∈ revenue →
  ∃ c, c ∈ merge_rates joined2 currency1 ∧ UserID (c_rev c) = UserID r.
Proof.
  intros H1 H3 Hr.
  assert (∃ j, j ∈ merge_team revenue teams ∧ j_rev j = r) as (j & Hj & <-).
  { destruct (filter (team_key r) teams) as [|t ts] eqn:Hf.
    - exists (team_row r team_NA). split; [|done].
      apply elem_of_merge_team. exists r. simpl. eauto.
    - exists (team_row r t). split; [|done].
      assert (t ∈ filter (team_key r) teams) as Hin by (rewrite Hf; left).
      apply list_elem_of_filter in Hin as [??].
      apply elem_of_merge_team. exists r. simpl. eauto. }
  pose proof (converted_rows _ _ _ H1 H3) as Hall.
  destruct (converted_rows_elem_of_l _ _ _ Hall Hj) as (j2 & Hj2 & _ & _ & Hu & _).
  destruct (merge_rates_keeps _ currency1 _ Hj2) as (c & Hc & Hcj & _).
  exists c. split; [done|]. unfold c_rev. by rewrite Hcj.
Qed.

(** C8, as amended.  [get_team] and then [convert_currency], on tables whose
    cells convert, return a table in which every revenue row has a row, and
    in which a row whose UserID is the ID of no team has a missing Currency;
    its Revenue_USD is missing, and its rate columns with it, provided that
    no rate row has a missing FROM_CURRENCY together with the row's date as
    DATE (the rate join takes a missing key to equal a missing key). *)
Theorem unmatched_revenue_usd_missing h revenue_df teams_df currency_df
    revenue teams currency joined1 currency1 joined2 :
  h !! revenue_df = Some (Revenues revenue) →
  h !! teams_df = Some (Teams teams) →
  h !! currency_df = Some (Rates currency) →
  result_mapM parse_Date (merge_team revenue teams) = Ok joined1 →
  result_mapM parse_DATE currency = Ok currency1 →
  result_mapM float_Revenue joined1 = Ok joined2 →
  let rows := merge_rates joined2 currency1 in
  ∃ joined_df h1 out h2,
    get_team revenue_df teams_df h = (h1, Ok joined_df)
    ∧ convert_currency joined_df currency_df h1 = (h2, Ok out)
    ∧ h2 !! out = Some (Converted rows)
    ∧ (∀ r, r ∈ revenue → ∃ c, c ∈ rows ∧ UserID (c_rev c) = UserID r)
    ∧ ∀ c, c ∈ rows → filter (team_key (c_rev c)) teams = [] →
        Currency (c_team c) = None
        ∧ ((∀ q, q ∈ currency1 →
              ¬ (FROM_CURRENCY q = None ∧ DATE q = Date (c_rev c))) →
           c_rate c = rate_NA ∧ Revenue_USD c = None).
Proof.
  intros Hr Ht Hc H1 H2 H3 rows.
  destruct (get_team_convert_spec _ _ _ _ _ _ _ _ _ _ Hr Ht Hc H1 H2 H3)
    as (joined_df & h1 & out & h2 & Hteam & Hconv & Hout).
  exists joined_df, h1, out, h2. split_and!; [done..| |].
  - intros r Hin. by eapply every_revenue_row_converted.
  - intros c Hin Hf.
    pose proof (unmatched_team_NA _ _ _ _ _ _ H1 H3 Hin Hf) as Hna.
    rewrite Hna. split; [done|]. intros Hnull.
    apply elem_of_merge_rates in Hin as (j & _ & Hcj & Husd & Hcase).
    unfold c_team, c_rev in *. rewrite Hcj in *.
    destruct Hcase as [[_ Hrate]|[Hq Hk]].
    + split; [done|]. rewrite Husd. unfold revenue_usd.
      rewrite Hna, Hrate. simpl. apply float_mul_None_r.
    + exfalso. apply (Hnull _ Hq). unfold rate_key in Hk. rewrite Hna in Hk.
      simpl in Hk. by injection Hk as <- <-.
Qed.

(** C9.  In the table that [get_team] and then [convert_currency] return,
    every revenue row has a row, and a row whose UserID is the ID of no team
    has a missing ID, hence no quarterly key, and is in no group of
    [get_quarterly_rev]: the quarterly table is the one computed without
    those rows. *)
Theorem quarterly_excludes_unmatched h revenue_df teams_df currency_df
    revenue teams currency joined1 currency1 joined2 :
  h !! revenue_df = Some (Revenues revenue) →
  h !! teams_df = Some (Teams teams) →
  h !! currency_df = Some (Rates currency) →
  result_mapM parse_Date (merge_team revenue teams) = Ok joined1 →
  result_mapM parse_DATE currency = Ok currency1 →
  result_mapM float_Revenue joined1 = Ok joined2 →
  let rows := merge_rates joined2 currency1 in
  ∃ joined_df h1 out h2,
    get_team revenue_df teams_df h = (h1, Ok joined_df)
    ∧ convert_currency joined_df currency_df h1 = (h2, Ok out)
    ∧ h2 !! out = Some (Converted rows)
    ∧ (∀ r, r ∈ revenue → ∃ c, c ∈ rows ∧ UserID (c_rev c) = UserID r)
    ∧ (∀ c, c ∈ rows → filter (team_key (c_rev c)) teams = [] →
         ID (c_team c) = None
         ∧ quarterly_key c = None
         ∧ ∀ k g, (k, g) ∈ groupby quarterly_le quarterly_key rows → c ∉ g)
    ∧ get_quarterly_rev rows
      = get_quarterly_rev
          (filter (λ c, filter (team_key (c_rev c)) teams ≠ []) rows).
Proof.
  intros Hr Ht Hc H1 H2 H3 rows.
  destruct (get_team_convert_spec _ _ _ _ _ _ _ _ _ _ Hr Ht Hc H1 H2 H3)
    as (joined_df & h1 & out & h2 & Hteam & Hconv & Hout).
  assert (∀ c, c ∈ rows → filter (team_key (c_rev c)) teams = [] →
               quarterly_key c = None) as Hkey.
  { intros c Hin Hf. unfold quarterly_key.
    by rewrite (unmatched_team_NA _ _ _ _ _ _ H1 H3 Hin Hf). }
  exists joined_df, h1, out, h2. split_and!; [done..| | |].
  - intros r Hin. by eapply every_revenue_row_converted.
  - intros c Hin Hf. split_and!.
    + by rewrite (unmatched_team_NA _ _ _ _ _ _ H1 H3 Hin Hf).
    + by apply Hkey.
    + intros k g. apply groupby_not_in. by apply Hkey.
  - unfold get_quarterly_rev. rewrite groupby_dropna; [done|].
    intros c Hin Hf. apply Hkey; [done|].
    by destruct (decide (filter (team_key (c_rev c)) teams = [])).
Qed.
End unmatched.

Lemma unmatched_revenue_usd_missing_witness :
  ∃ joined1 currency1 joined2,
    (sample_coded_store !! 2%positive = Some (Revenues sample_revenue)
     ∧ sample_coded_store !! 1%positive = Some (Teams (assign_currency <$> sample_teams))
     ∧ sample_coded_store !! 3%positive = Some (Rates sample_rates)
     ∧ result_mapM parse_Date (merge_team sample_revenue (assign_currency <$> sample_teams))
       = Ok joined1
     ∧ result_mapM parse_DATE sample_rates = Ok currency1
     ∧ result_mapM float_Revenue joined1 = Ok joined2)
    ∧ ∃ joined_df h1 out h2,
        get_team 2%positive 1%positive sample_coded_store = (h1, Ok joined_df)
        ∧ convert_currency joined_df 3%positive h1 = (h2, Ok out)
        ∧ h2 !! out = Some (Converted (merge_rates joined2 currency1))
        ∧ (λ c, (UserID (c_rev c), Currency (c_team c), Revenue_USD c))
            <$> merge_rates joined2 currency1
          = [(Some 1, Some "USD", Some 100); (Some 2, Some "JPY", Some 600000);
             (Some 2, Some "GBP", None); (Some 9, None, None);
             (Some 1, Some "USD", Some 7)]%Z.
Proof.
  edestruct (unmatched_revenue_usd_missing (rt := exact_runtime) sample_coded_store
               2%positive 1%positive 3%positive sample_revenue
               (assign_currency <$> sample_teams) sample_rates)
    as (joined_df & h1 & out & h2 & Hteam & Hconv & Hout & _); [reflexivity..|].
  eexists _, _, _. split; [repeat split; reflexivity|].
  exists joined_df, h1, out, h2.
  split; [exact Hteam|]. split; [exact Hconv|]. split; [exact Hout|]. reflexivity.
Defined.

(** C8 as stated fails when the rate table has a row with an empty currency
    cell.  User 9 is in no team, so the team join leaves the Currency of the
    sale missing; the second rate row of the same day has a missing
    FROM_CURRENCY, the two missing keys match, and Revenue_USD is 100 × 2,
    not missing. *)
Lemma unmatched_revenue_usd_present :
  ∃ h out c' c,
    main_transform (rt := exact_runtime) 1%positive 2%positive 3%positive
      null_key_store = (h, Ok out)
    ∧ h !! out = Some (Converted [c'; c])
    ∧ UserID (c_rev c) = Some 9%Z
    ∧ filter (team_key (c_rev c)) (assign_currency <$> null_key_teams) = []
    ∧ Currency (c_team c) = None
    ∧ FROM_CURRENCY (c_rate c) = None
    ∧ EXCHANGE_RATE (c_rate c) = Some 2%Z
    ∧ Revenue_USD c = Some 200%Z
    ∧ Revenue_USD c ≠ None.
Proof.
  eexists _, _, _, _.
  split; [vm_compute; reflexivity|].
  repeat (split; [vm_compute; reflexivity|]).
  vm_compute. discriminate.
Qed.

Lemma quarterly_excludes_unmatched_witness :
  ∃ joined1 currency1 joined2,
    (sample_coded_store !! 2%positive = Some (Revenues sample_revenue)
     ∧ sample_coded_store !! 1%positive = Some (Teams (assign_currency <$> sample_teams))
     ∧ sample_coded_store !! 3%positive = Some (Rates sample_rates)
     ∧ result_mapM parse_Date (merge_team sample_revenue (assign_currency <$> sample_teams))
       = Ok joined1
     ∧ result_mapM parse_DATE sample_rates = Ok currency1
     ∧ result_mapM float_Revenue joined1 = Ok joined2)
    ∧ ∃ joined_df h1 out h2,
        get_team 2%positive 1%positive sample_coded_store = (h1, Ok joined_df)
        ∧ convert_currency joined_df 3%positive h1 = (h2, Ok out)
        ∧ h2 !! out = Some (Converted (merge_rates joined2 currency1))
        ∧ (λ c, (UserID (c_rev c), ID (c_team c))) <$> merge_rates joined2 currency1
          = [(Some 1, Some 1); (Some 2, Some 2); (Some 2, Some 2); (Some 9, None);
             (Some 1, Some 1)]%Z
        ∧ (λ q, (q_ID q, q_Revenue_USD q))
            <$> get_quarterly_rev (merge_rates joined2 currency1)
          = [(1, Some 107); (2, Some 600000)]%Z.
Proof.
  edestruct (quarterly_excludes_unmatched (rt := exact_runtime) sample_coded_store
               2%positive 1%positive 3%positive sample_revenue
               (assign_currency <$> sample_teams) sample_rates)
    as (joined_df & h1 & out & h2 & Hteam & Hconv & Hout & _); [reflexivity..|].
  eexists _, _, _. split; [repeat split; reflexivity|].
  exists joined_df, h1, out, h2.
  split; [exact Hteam|]. split; [exact Hconv|]. split; [exact Hout|].
  split; reflexivity.
Defined.

Section export.
Context {num : Type} {rt : Runtime num}.
Implicit Types h : gmap loc (frame num).

Lemma to_datetime_is_datetime_id d : is_datetime d → to_datetime d = Ok d.
Proof. by destruct d. Qed.

(** The three stages of [main] on a store that holds the three tables. *)
Lemma main_transform_spec h teams_df revenue_df currency_df teams revenue currency
    joined1 currency1 joined2 :
  h !! teams_df = Some (Teams teams) →
  h !! revenue_df = Some (Revenues revenue) →
  h !! currency_df = Some (Rates currency) →
  result_mapM parse_Date (merge_team revenue (assign_currency <$> teams)) = Ok joined1 →
  result_mapM parse_DATE currency = Ok currency1 →
  result_mapM float_Revenue joined1 = Ok joined2 →
  ∃ h' out,
    main_transform teams_df revenue_df currency_df h = (h', Ok out)
    ∧ h' !! out = Some (Converted (merge_rates joined2 currency1)).
Proof.
  intros Ht Hr Hc H1 H2 H3.
  assert (teams_df ≠ revenue_df) as Hne1 by (intros ->; congruence).
  assert (teams_df ≠ currency_df) as Hne2 by (intros ->; congruence).
  edestruct (get_team_convert_spec
               (<[teams_df := Teams (assign_currency <$> teams)]> h)
               revenue_df teams_df currency_df)
    as (joined_df & h1 & out & h2 & Hteam & Hconv & Hout); [..|done|done|done|].
  { by rewrite lookup_insert_ne. }
  { apply lookup_insert_eq. }
  { by rewrite lookup_insert_ne. }
  exists h2, out. split; [|done]. unfold main_transform.
  rewrite (bind_ok _ _ _ _ _ (get_currency_code_spec _ _ _ Ht)).
  by rewrite (bind_ok _ _ _ _ _ Hteam).
Qed.

Lemma converted_dates_parsed (revenue revenue1 revenue2 : list (JoinedRecord num))
    currency1 c :
  result_mapM parse_Date revenue = Ok revenue1 →
  result_mapM float_Revenue revenue1 = Ok revenue2 →
  c ∈ merge_rates revenue2 currency1 →
  is_datetime (Date (c_rev c)).
Proof.
  intros H1 H3 Hc. apply elem_of_merge_rates in Hc as (j2 & Hj2 & Hcj & _).
  pose proof (converted_rows _ _ _ H1 H3) as Hall.
  destruct (converted_rows_elem_of _ _ _ Hall Hj2) as (j & _ & Hd & _).
  unfold c_rev. rewrite Hcj. by eapply to_datetime_is_datetime.
Qed.

(** C7.  [export_to_csv] raises ValueError exactly when its table has no
    row, whatever the write does.  The stages before it raise nothing on
    tables whose cells convert, whether or not anything matches and whether
    or not there are rows: the three stages of [main] return a table, and
    [get_total_monthly_revenue] returns one for it; from an empty revenue
    table every one of these tables is empty. *)
Theorem export_raises_iff_empty h teams_df revenue_df currency_df teams revenue
    currency joined1 currency1 joined2 :
  h !! teams_df = Some (Teams teams) →
  h !! revenue_df = Some (Revenues revenue) →
  h !! currency_df = Some (Rates currency) →
  result_mapM parse_Date (merge_team revenue (assign_currency <$> teams)) = Ok joined1 →
  result_mapM parse_DATE currency = Ok currency1 →
  result_mapM float_Revenue joined1 = Ok joined2 →
  (∀ A (to_csv : list A → string → result unit) (df : list A) file_path,
     export_to_csv to_csv df file_path = Raise ValueError ↔ df = [])
  ∧ ∃ h' out rows monthly,
      main_transform teams_df revenue_df currency_df h = (h', Ok out)
      ∧ h' !! out = Some (Converted rows)
      ∧ get_total_monthly_revenue rows = Ok monthly
      ∧ (revenue = [] →
           rows = [] ∧ get_quarterly_rev rows = [] ∧ monthly = []
           ∧ total_revenue rows = []).
Proof.
  intros Ht Hr Hc H1 H2 H3. split.
  - intros A to_csv df file_path. unfold export_to_csv.
    destruct df as [|a df]; [done|].
    destruct (to_csv (a :: df) file_path); split; done.
  - destruct (main_transform_spec _ _ _ _ _ _ _ _ _ _ Ht Hr Hc H1 H2 H3)
      as (h' & out & Hcall & Hout).
    assert (result_mapM with_Month (merge_rates joined2 currency1)
            = Ok ((λ c, (month_of c, c)) <$> merge_rates joined2 currency1)) as Hm.
    { apply with_Month_total, Forall_forall. intros c Hin.
      exists (Date (c_rev c)). apply to_datetime_is_datetime_id.
      by eapply converted_dates_parsed. }
    eexists h', out, _, _. split; [done|]. split; [done|]. split.
    { unfold get_total_monthly_revenue. rewrite Hm. simpl. done. }
    intros ->. simpl in H1. injection H1 as <-. simpl in H3. injection H3 as <-.
    done.
Qed.
End export.

Section sales.
Context {num : Type} {rt : Runtime num}.
Implicit Types h : gmap loc (frame num).

(** [sales_rev] returns the per-UserID totals of the selected sales, joined
    and converted as in [main]. *)
Lemma sales_rev_spec h sales_id sales_df teams_df currency_df sales teams currency
    joined1 currency1 joined2 :
  h !! sales_df = Some (Revenues sales) →
  h !! teams_df = Some (Teams teams) →
  h !! currency_df = Some (Rates currency) →
  result_mapM parse_Date
    (merge_team (filter (isin sales_id) sales) (assign_currency <$> teams)) = Ok joined1 →
  result_mapM parse_DATE currency = Ok currency1 →
  result_mapM float_Revenue joined1 = Ok joined2 →
  ∃ h',
    sales_rev sales_id sales_df teams_df currency_df h
      = (h', Ok (total_revenue (merge_rates joined2 currency1))).
Proof.
  intros Hs Ht Hc H1 H2 H3.
  assert (teams_df ≠ currency_df) as Hne by (intros ->; congruence).
  assert (teams_df ≠ fresh (dom h)) as Hf1 by (by eapply lookup_fresh_ne).
  assert (currency_df ≠ fresh (dom h)) as Hf2 by (by eapply lookup_fresh_ne).
  assert (<[fresh (dom h) := Revenues (filter (isin sales_id) sales)]> h !! teams_df
          = Some (Teams teams)) as Ht0 by (by rewrite lookup_insert_ne).
  edestruct (get_team_convert_spec
               (<[teams_df := Teams (assign_currency <$> teams)]>
                  (<[fresh (dom h) := Revenues (filter (isin sales_id) sales)]> h))
               (fresh (dom h)) teams_df currency_df)
    as (joined_df & h1 & out & h2 & Hteam & Hconv & Hout); [..|done|done|done|].
  { by rewrite lookup_insert_ne, lookup_insert_eq. }
  { apply lookup_insert_eq. }
  { by rewrite !lookup_insert_ne. }
  exists h2. unfold sales_rev.
  rewrite (bind_ok _ _ _ _ _ (load_revenues_ok _ _ _ Hs)).
  erewrite (bind_ok (alloc _)) by reflexivity.
  rewrite (bind_ok _ _ _ _ _ (get_currency_code_spec _ _ _ Ht0)).
  rewrite (bind_ok _ _ _ _ _ Hteam), (bind_ok _ _ _ _ _ Hconv).
  by rewrite (bind_ok _ _ _ _ _ (load_converted_ok _ _ _ Hout)).
Qed.
End sales.

(** The sample sales of users 1 and 9 through [sales_rev]: user 9 is in no
    team, every Revenue_USD of the group is missing, and its total is 0. *)
Example sales_rev_sample :
  (λ s, (s_UserID s, s_Currency s, s_Revenue_USD s)) <$>
    match (sales_rev (rt := exact_runtime) [1; 9]%Z 2%positive 1%positive 3%positive
             sample_store).2 with
    | Ok total => total
    | Raise _ => []
    end
  = [(1, Some "USD", Some 107); (9, None, Some 0)]%Z.
Proof. reflexivity. Qed.

Lemma export_raises_iff_empty_witness :
  (empty_store !! 1%positive = Some (Teams [])
   ∧ empty_store !! 2%positive = Some (Revenues [])
   ∧ empty_store !! 3%positive = Some (Rates [])
   ∧ result_mapM (parse_Date (rt := exact_runtime)) (merge_team [] (assign_currency <$> []))
     = Ok []
   ∧ result_mapM (parse_DATE (rt := exact_runtime)) [] = Ok []
   ∧ result_mapM (float_Revenue (rt := exact_runtime)) [] = Ok [])
  ∧ (∃ h' out,
       main_transform (rt := exact_runtime) 1%positive 2%positive 3%positive empty_store
         = (h', Ok out)
       ∧ h' !! out = Some (Converted []))
  ∧ export_to_csv (λ _ _, Ok tt) (get_quarterly_rev (num := Z) []) "quarterly_rev.csv"
    = Raise ValueError
  ∧ export_to_csv (λ _ _, Raise ValueError) sample_converted "revenue_df.csv"
    = Raise IOError.
Proof.
  split; [repeat split; reflexivity|].
  destruct (export_raises_iff_empty (rt := exact_runtime) empty_store 1%positive
              2%positive 3%positive [] [] [] [] [] []
              eq_refl eq_refl eq_refl eq_refl eq_refl eq_refl)
    as [Hexport (h' & out & rows & monthly & Hcall & Hout & _ & Hempty)].
  destruct (Hempty eq_refl) as (-> & _).
  split; [by exists h', out|]. split; [by apply Hexport|]. reflexivity.
Defined.

(** * Further properties of the pipeline *)

Section converter_errors.
Context {num : Type} {rt : Runtime num}.
Implicit Types h : gmap loc (frame num).

Lemma result_mapM_Raise {A B} (f : A → result B) l e :
  result_mapM f l = Raise e → ∃ a, a ∈ l ∧ f a = Raise e.
Proof.
  induction l as [|a l IH]; [done|]. simpl.
  destruct (f a) as [b|e'] eqn:Ha; simpl.
  - destruct (result_mapM f l) as [bs|e'] eqn:Hl; simpl; [done|].
    intros [= ->]. destruct (IH eq_refl) as (a' & ? & ?).
    exists a'. split; [by right|done].
  - intros [= ->]. exists a. split; [left|done].
Qed.







Lemma is_float_astype_float (x : num_cell num) : is_float x → astype_float x = Ok x.
Proof. by destruct x. Qed.

Lemma is_datetime_to_datetime d : is_datetime d → to_datetime d = Ok d.
Proof. by destruct d. Qed.

Lemma result_mapM_id {A} (f : A → result A) l :
  Forall (λ a, f a = Ok a) l → result_mapM f l = Ok l.
Proof.
  induction 1 as [|a l Ha _ IH]; [done|]. simpl. by rewrite Ha, IH.
Qed.

(** X2.  A second call of [convert_currency] on the same two arguments
    converts nothing further: it returns without raising, leaves both
    arguments as the first call left them, and the table it returns, at
    another new location, has the same rows as the first. *)
Theorem convert_currency_twice h revenue_df currency_df revenue currency
    revenue1 currency1 revenue2 :
  h !! revenue_df = Some (Joined revenue) →
  h !! currency_df = Some (Rates currency) →
  result_mapM parse_Date revenue = Ok revenue1 →
  result_mapM parse_DATE currency = Ok currency1 →
  result_mapM float_Revenue revenue1 = Ok revenue2 →
  ∃ h' out out',
    convert_currency revenue_df currency_df h = (h', Ok out)
    ∧ convert_currency revenue_df currency_df h'
      = (<[out' := Converted (merge_rates revenue2 currency1)]> h', Ok out')
    ∧ h' !! out' = None
    ∧ h' !! out = Some (Converted (merge_rates revenue2 currency1))
    ∧ h' !! revenue_df = Some (Joined revenue2)
    ∧ h' !! currency_df = Some (Rates currency1).
Proof.
  intros Hr Hc H1 H2 H3.
  assert (revenue_df ≠ currency_df) as Hne by (intros ->; congruence).
  set (h1 := converted_store h revenue_df currency_df revenue2 currency1).
  set (out := fresh (dom h1)).
  set (h' := <[out := Converted (merge_rates revenue2 currency1)]> h1).
  assert (h1 !! revenue_df = Some (Joined revenue2)) as Hr1
    by (unfold h1, converted_store; by rewrite lookup_insert_eq).
  assert (h1 !! currency_df = Some (Rates currency1)) as Hc1
    by (unfold h1, converted_store; by rewrite lookup_insert_ne, lookup_insert_eq).
  assert (revenue_df ≠ out) as Ho1 by (by eapply lookup_fresh_ne).
  assert (currency_df ≠ out) as Ho2 by (by eapply lookup_fresh_ne).
  assert (h' !! revenue_df = Some (Joined revenue2)) as Hr'
    by (unfold h'; by rewrite lookup_insert_ne).
  assert (h' !! currency_df = Some (Rates currency1)) as Hc'
    by (unfold h'; by rewrite lookup_insert_ne).
  assert (result_mapM parse_Date revenue2 = Ok revenue2) as H1'.
  { apply result_mapM_id, Forall_forall. intros j Hj.
    destruct (converted_rows_elem_of _ _ _ (converted_rows _ _ _ H1 H3) Hj)
      as (j0 & _ & Hd & _).
    apply parse_Date_Ok. exists (Date (j_rev j)). split.
    - apply is_datetime_to_datetime. by eapply to_datetime_is_datetime.
    - by destruct j as [[] ?]. }
  assert (result_mapM parse_DATE currency1 = Ok currency1) as H2'.
  { apply result_mapM_id, Forall_forall. intros q Hq.
    destruct (result_mapM_elem_of _ _ _ _ H2 Hq) as (q0 & _ & Hq0).
    apply parse_DATE_Ok in Hq0 as (d & Hd & ->).
    apply parse_DATE_Ok. exists d. split; [|done]. simpl.
    apply is_datetime_to_datetime. by eapply to_datetime_is_datetime. }
  assert (result_mapM float_Revenue revenue2 = Ok revenue2) as H3'.
  { apply result_mapM_id, Forall_forall. intros j Hj.
    apply float_Revenue_Ok. exists (Revenue (j_rev j)). split.
    - apply is_float_astype_float. by eapply float_Revenue_is_float.
    - by destruct j as [[] ?]. }
  exists h', out, (fresh (dom h')). split_and!.
  - by eapply convert_currency_spec.
  - erewrite (convert_currency_spec h'); [|done..]. simpl.
    assert (converted_store h' revenue_df currency_df revenue2 currency1 = h') as ->;
      [|done].
    unfold converted_store. rewrite (insert_id h' currency_df) by done.
    by rewrite insert_id.
  - apply fresh_lookup.
  - unfold h'. by rewrite lookup_insert_eq.
  - done.
  - done.
Qed.
End converter_errors.


Lemma convert_currency_twice_witness :
  ∃ revenue1 currency1 revenue2,
    (sample_joined_store !! 4%positive = Some (Joined sample_joined)
     ∧ sample_joined_store !! 3%positive = Some (Rates sample_rates)
     ∧ result_mapM parse_Date sample_joined = Ok revenue1
     ∧ result_mapM parse_DATE sample_rates = Ok currency1
     ∧ result_mapM float_Revenue revenue1 = Ok revenue2)
    ∧ ∃ h' out out',
        convert_currency 4%positive 3%positive sample_joined_store = (h', Ok out)
        ∧ convert_currency 4%positive 3%positive h'
          = (<[out' := Converted (merge_rates revenue2 currency1)]> h', Ok out')
        ∧ h' !! out' = None.
Proof.
  edestruct (convert_currency_twice (rt := exact_runtime) sample_joined_store
               4%positive 3%positive sample_joined sample_rates)
    as (h' & out & out' & Hfirst & Hsecond & Hnew & _); [reflexivity..|].
  eexists _, _, _. split; [repeat split; reflexivity|].
  exists h', out, out'. split; [exact Hfirst|]. split; [exact Hsecond|]. exact Hnew.
Defined.

Section currency_presence.
Context {num : Type} {rt : Runtime num}.
Implicit Types h : gmap loc (frame num).

Lemma country_to_currency_codes country :
  country_to_currency country ∈ currency_codes.
Proof.
  rewrite country_to_currency_by_table.
  destruct country as [c|]; simpl;
    repeat case_bool_decide; simpl;
    refine (bool_decide_unpack _ _); vm_compute; exact I.
Qed.

Lemma assign_currency_idemp t : assign_currency (assign_currency t) = assign_currency t.
Proof. done. Qed.

(** X3.  [get_currency_code] gives every team one of the ten currency codes,
    never a missing one, and a second call on the same table changes
    nothing. *)
Theorem get_currency_code_twice h teams_df teams :
  h !! teams_df = Some (Teams teams) →
  ∃ h1 teams1,
    get_currency_code teams_df h = (h1, Ok teams_df)
    ∧ h1 !! teams_df = Some (Teams teams1)
    ∧ get_currency_code teams_df h1 = (h1, Ok teams_df)
    ∧ ∀ t, t ∈ teams1 → ∃ code, code ∈ currency_codes ∧ Currency t = Some code.
Proof.
  intros Ht. exists (<[teams_df := Teams (assign_currency <$> teams)]> h),
    (assign_currency <$> teams). split_and!.
  - by apply get_currency_code_spec.
  - apply lookup_insert_eq.
  - erewrite get_currency_code_spec by apply lookup_insert_eq.
    rewrite insert_insert_eq, <-list_fmap_compose. do 3 f_equal.
  - intros t Hin. apply list_elem_of_fmap in Hin as (t0 & -> & _).
    eexists. split; [apply country_to_currency_codes|done].
Qed.

Lemma filter_team_key_assign (r : RevenueRecord num) (teams : list TeamRecord) :
  filter (team_key r) (assign_currency <$> teams) = [] ↔ filter (team_key r) teams = [].
Proof.
  induction teams as [|t teams IH]; [done|]. csimpl.
  destruct (decide (team_key r t)) as [Hk|Hk].
  - rewrite (filter_cons_True _ (assign_currency t)) by done.
    rewrite (filter_cons_True _ t) by done. done.
  - rewrite (filter_cons_False _ (assign_currency t)) by done.
    rewrite (filter_cons_False _ t) by done. done.
Qed.

(** X4.  In the table the three stages of [main] return, the Currency of a
    row is missing exactly when the row's UserID is the ID of no team; every
    other row carries one of the ten currency codes. *)
Theorem currency_missing_iff_unmatched h teams_df revenue_df currency_df teams
    revenue currency joined1 currency1 joined2 :
  h !! teams_df = Some (Teams teams) →
  h !! revenue_df = Some (Revenues revenue) →
  h !! currency_df = Some (Rates currency) →
  result_mapM parse_Date (merge_team revenue (assign_currency <$> teams)) = Ok joined1 →
  result_mapM parse_DATE currency = Ok currency1 →
  result_mapM float_Revenue joined1 = Ok joined2 →
  let rows := merge_rates joined2 currency1 in
  ∃ h' out,
    main_transform teams_df revenue_df currency_df h = (h', Ok out)
    ∧ h' !! out = Some (Converted rows)
    ∧ ∀ c, c ∈ rows →
        (Currency (c_team c) = None ↔ filter (team_key (c_rev c)) teams = [])
        ∧ (filter (team_key (c_rev c)) teams ≠ [] →
             ∃ code, code ∈ currency_codes ∧ Currency (c_team c) = Some code).
Proof.
  intros Ht Hr Hc H1 H2 H3 rows.
  destruct (main_transform_spec _ _ _ _ _ _ _ _ _ _ Ht Hr Hc H1 H2 H3)
    as (h' & out & Hcall & Hout).
  exists h', out. split; [done|]. split; [done|]. intros c Hin.
  assert (filter (team_key (c_rev c)) teams = [] → Currency (c_team c) = None) as Hna.
  { intros Hf. apply filter_team_key_assign in Hf.
    by rewrite (unmatched_team_NA _ _ _ _ _ _ H1 H3 Hin Hf). }
  assert (filter (team_key (c_rev c)) teams ≠ [] →
          ∃ code, code ∈ currency_codes ∧ Currency (c_team c) = Some code) as Hcode.
  { intros Hf.
    destruct (converted_row_origin _ _ _ _ _ _ H1 H3 Hin) as (j & Hj & _ & Hu & Hteam).
    apply elem_of_merge_team in Hj as (r & _ & <- & Hcase).
    destruct Hcase as [[Hnil _]|[Hjt _]].
    - exfalso. apply Hf. apply filter_team_key_assign.
      by rewrite (team_key_filter _ (j_rev j)).
    - apply list_elem_of_fmap in Hjt as (t0 & Ht0 & _).
      rewrite Hteam, Ht0. eexists. split; [apply country_to_currency_codes|done]. }
  split; [|done]. split; [|done].
  intros Hnone. destruct (decide (filter (team_key (c_rev c)) teams = [])) as [|Hf];
    [done|].
  destruct (Hcode Hf) as (code & _ & Hsome). congruence.
Qed.
End currency_presence.

Lemma get_currency_code_twice_witness :
  sample_store !! 1%positive = Some (Teams sample_teams)
  ∧ ∃ h1 teams1,
      get_currency_code 1%positive sample_store = (h1, Ok 1%positive)
      ∧ h1 !! 1%positive = Some (Teams teams1)
      ∧ get_currency_code 1%positive h1 = (h1, Ok 1%positive).
Proof.
  split; [reflexivity|].
  destruct (get_currency_code_twice sample_store 1%positive sample_teams eq_refl)
    as (h1 & teams1 & Hfirst & Hlook & Hsecond & _).
  exists h1, teams1. split; [exact Hfirst|]. split; [exact Hlook|]. exact Hsecond.
Defined.

Lemma currency_missing_iff_unmatched_witness :
  ∃ joined1 currency1 joined2,
    (sample_store !! 1%positive = Some (Teams sample_teams)
     ∧ sample_store !! 2%positive = Some (Revenues sample_revenue)
     ∧ sample_store !! 3%positive = Some (Rates sample_rates)
     ∧ result_mapM parse_Date (merge_team sample_revenue (assign_currency <$> sample_teams))
       = Ok joined1
     ∧ result_mapM parse_DATE sample_rates = Ok currency1
     ∧ result_mapM float_Revenue joined1 = Ok joined2)
    ∧ ∃ h' out,
        main_transform 1%positive 2%positive 3%positive sample_store = (h', Ok out)
        ∧ h' !! out = Some (Converted (merge_rates joined2 currency1))
        ∧ (λ c, (UserID (c_rev c), Currency (c_team c))) <$> merge_rates joined2 currency1
          = [(Some 1, Some "USD"); (Some 2, Some "JPY"); (Some 2, Some "GBP");
             (Some 9, None); (Some 1, Some "USD")]%Z.
Proof.
  edestruct (currency_missing_iff_unmatched (rt := exact_runtime) sample_store
               1%positive 2%positive 3%positive sample_teams sample_revenue sample_rates)
    as (h' & out & Hcall & Hout & _); [reflexivity..|].
  eexists _, _, _. split; [repeat split; reflexivity|].
  exists h', out. split; [exact Hcall|]. split; [exact Hout|]. reflexivity.
Defined.

Section frames.
Context {num : Type} {rt : Runtime num}.
Implicit Types h : gmap loc (frame num).

(** Whatever they return or raise, the calls keep every object they are not
    given: [get_team] keeps its arguments too. *)

Lemma alloc_frame h (f : frame num) l g :
  h !! l = Some g → (alloc f h).1 !! l = Some g.
Proof.
  intros Hl. unfold alloc. simpl. rewrite lookup_insert_ne; [done|].
  symmetry. by eapply lookup_fresh_ne.
Qed.

Lemma get_currency_code_frame h teams_df l g :
  l ≠ teams_df → h !! l = Some g → (get_currency_code teams_df h).1 !! l = Some g.
Proof.
  intros Hne Hl. unfold get_currency_code, load_teams, bind, load, store, ret, raise.
  destruct (h !! teams_df) as [[]|]; simpl; try done.
  by rewrite lookup_insert_ne.
Qed.

Lemma get_team_frame h revenue_df teams_df l g :
  h !! l = Some g → (get_team revenue_df teams_df h).1 !! l = Some g.
Proof.
  intros Hl. unfold get_team, load_revenues, load_teams, bind, load, ret, raise.
  destruct (h !! revenue_df) as [[]|]; simpl; try done.
  destruct (h !! teams_df) as [[]|]; simpl; try done.
  by apply alloc_frame.
Qed.

End frames.

Section sales_frame.
Context {num : Type} {rt : Runtime num}.
Implicit Types h : gmap loc (frame num).


End sales_frame.

Section sales_rows.
Context {num : Type} {rt : Runtime num}.
Implicit Types h : gmap loc (frame num).

Lemma total_revenue_keys (rows : list (ConvertedRecord num)) :
  s_UserID <$> total_revenue rows
  = merge_sort Z.le (remove_dups (omap (λ c, UserID (c_rev c)) rows)).
Proof.
  unfold total_revenue, groupby. rewrite <-!list_fmap_compose.
  rewrite (list_fmap_ext _ id) by done. apply list_fmap_id.
Qed.

(** X5.  When the cells convert, [sales_rev] returns one row for each
    requested user who has at least one sale and for no one else: the UserID
    column of its result is in increasing order, without repetition, and
    holds exactly the requested IDs that occur in the sales table. *)
Theorem sales_rev_users h sales_id sales_df teams_df currency_df sales teams currency
    joined1 currency1 joined2 :
  h !! sales_df = Some (Revenues sales) →
  h !! teams_df = Some (Teams teams) →
  h !! currency_df = Some (Rates currency) →
  result_mapM parse_Date
    (merge_team (filter (isin sales_id) sales) (assign_currency <$> teams)) = Ok joined1 →
  result_mapM parse_DATE currency = Ok currency1 →
  result_mapM float_Revenue joined1 = Ok joined2 →
  ∃ h' total,
    sales_rev sales_id sales_df teams_df currency_df h = (h', Ok total)
    ∧ NoDup (s_UserID <$> total)
    ∧ Sorted Z.le (s_UserID <$> total)
    ∧ ∀ u, u ∈ s_UserID <$> total ↔
           u ∈ sales_id ∧ ∃ r, r ∈ sales ∧ UserID r = Some u.
Proof.
  intros Hs Ht Hc H1 H2 H3.
  destruct (sales_rev_spec _ _ _ _ _ _ _ _ _ _ _ Hs Ht Hc H1 H2 H3) as [h' Hcall].
  exists h', (total_revenue (merge_rates joined2 currency1)).
  split; [done|]. rewrite total_revenue_keys. split_and!.
  - rewrite merge_sort_Permutation. apply NoDup_remove_dups.
  - apply (Sorted_merge_sort Z.le).
  - intros u. rewrite merge_sort_Permutation, elem_of_remove_dups, list_elem_of_omap.
    split.
    + intros (c & Hin & Hu).
      destruct (converted_row_origin _ _ _ _ _ _ H1 H3 Hin) as (j & _ & Hj & Huj & _).
      apply list_elem_of_filter in Hj as [Hsel Hj].
      unfold isin in Hsel. rewrite <-Huj, Hu in Hsel. split; [done|].
      exists (j_rev j). split; [done|]. congruence.
    + intros (Hu & r & Hr & Hur).
      assert (r ∈ filter (isin sales_id) sales) as Hsel.
      { apply list_elem_of_filter. split; [|done]. unfold isin. by rewrite Hur. }
      destruct (every_revenue_row_converted _ _ _ _ currency1 _ H1 H3 Hsel)
        as (c & Hin & Huc).
      exists c. split; [done|]. congruence.
Qed.
End sales_rows.

Lemma sales_rev_users_witness :
  ∃ joined1 currency1 joined2,
    (sample_store !! 2%positive = Some (Revenues sample_revenue)
     ∧ sample_store !! 1%positive = Some (Teams sample_teams)
     ∧ sample_store !! 3%positive = Some (Rates sample_rates)
     ∧ result_mapM parse_Date
         (merge_team (filter (isin [9; 1; 4]%Z) sample_revenue)
            (assign_currency <$> sample_teams)) = Ok joined1
     ∧ result_mapM parse_DATE sample_rates = Ok currency1
     ∧ result_mapM float_Revenue joined1 = Ok joined2)
    ∧ ∃ h' total,
        sales_rev [9; 1; 4]%Z 2%positive 1%positive 3%positive sample_store
          = (h', Ok total)
        ∧ s_UserID <$> total = [1; 9]%Z.
Proof.
  edestruct (sales_rev_users (rt := exact_runtime) sample_store [9; 1; 4]%Z
               2%positive 1%positive 3%positive sample_revenue sample_teams sample_rates)
    as (h' & total & Hcall & _); [reflexivity..|].
  eexists _, _, _. split; [repeat split; reflexivity|].
  exists h', total. split; [exact Hcall|].
  pose proof Hcall as Hrun. vm_compute in Hrun. injection Hrun as _ <-.
  reflexivity.
Defined.


Section group_keys.
Context {num : Type} {rt : Runtime num}.

Lemma lex_total (c c' : comparison) (r r' : bool) :
  c' = CompOpp c → (r = true ∨ r' = true) → lex c r = true ∨ lex c' r' = true.
Proof. intros -> Hr. destruct c; simpl; auto. Qed.

Lemma Timestamp_leb_total a b : Timestamp_leb a b = true ∨ Timestamp_leb b a = true.
Proof.
  unfold Timestamp_leb.
  apply lex_total; [apply Z.compare_antisym|].
  apply lex_total; [apply Z.compare_antisym|].
  apply lex_total; [apply Z.compare_antisym|].
  rewrite !Z.leb_le. lia.
Qed.

Lemma date_cell_leb_total a b : date_cell_leb a b = true ∨ date_cell_leb b a = true.
Proof.
  destruct a as [|s|t], b as [|s'|t']; simpl; auto.
  - apply String.leb_total.
  - apply Timestamp_leb_total.
Qed.

Global Instance quarterly_le_total : Total quarterly_le.
Proof.
  intros a b. unfold quarterly_le.
  apply lex_total; [apply Z.compare_antisym|apply date_cell_leb_total].
Qed.

Global Instance period_le_total : Total period_le.
Proof.
  intros a b. unfold period_le.
  apply lex_total; [apply Z.compare_antisym|]. rewrite !Z.leb_le. lia.
Qed.

Lemma remove_dups_length {A} `{!EqDecision A} (l : list A) :
  length (remove_dups l) ≤ length l.
Proof.
  induction l as [|x l IH]; [done|]. simpl.
  destruct (decide_rel elem_of x l); simpl; lia.
Qed.

Lemma get_quarterly_rev_keys (rows : list (ConvertedRecord num)) :
  (λ q, (q_ID q, q_Date q)) <$> get_quarterly_rev rows
  = merge_sort quarterly_le (remove_dups (omap quarterly_key rows)).
Proof.
  unfold get_quarterly_rev, groupby. rewrite <-!list_fmap_compose.
  rewrite (list_fmap_ext _ id); [apply list_fmap_id|]. by intros _ [??] _.
Qed.

(** X7.  [get_quarterly_rev] returns one row for each (ID, Date) pair that
    occurs, with neither part missing, in its table: the pairs of its result
    are in increasing order (by ID, then by Date), without repetition, they
    are exactly the pairs of the table, and the result has no more rows than
    the table. *)
Theorem get_quarterly_rev_groups (rows : list (ConvertedRecord num)) :
  let keys := (λ q, (q_ID q, q_Date q)) <$> get_quarterly_rev rows in
  NoDup keys
  ∧ Sorted quarterly_le keys
  ∧ (∀ k, k ∈ keys ↔ ∃ c, c ∈ rows ∧ quarterly_key c = Some k)
  ∧ (∀ k, k ∈ keys → k.2 ≠ NaT)
  ∧ length (get_quarterly_rev rows) ≤ length rows.
Proof.
  intros keys. unfold keys. rewrite get_quarterly_rev_keys. split_and!.
  - rewrite merge_sort_Permutation. apply NoDup_remove_dups.
  - apply (Sorted_merge_sort quarterly_le).
  - intros k. by rewrite merge_sort_Permutation, elem_of_remove_dups, list_elem_of_omap.
  - intros k. rewrite merge_sort_Permutation, elem_of_remove_dups, list_elem_of_omap.
    intros (c & _ & Hk). unfold quarterly_key, date_key in Hk.
    destruct (ID (c_team c)); [|done].
    destruct (Date (c_rev c)); simplify_eq; done.
  - rewrite <-(length_fmap (λ q, (q_ID q, q_Date q))), get_quarterly_rev_keys.
    rewrite merge_sort_Permutation.
    etrans; [apply remove_dups_length|].
    clear. induction rows as [|c rows IH]; [done|]. csimpl.
    destruct (quarterly_key c); simpl; lia.
Qed.
End group_keys.

Section conservation.
Context {num : Type} {rt : Runtime num}.
Context (Hassoc : Assoc (=) (num_add (Runtime := rt))).
Context (Hcomm : Comm (=) (num_add (Runtime := rt))).
Context (Hid : LeftId (=) num_zero (num_add (Runtime := rt))).




Section groups.
Context {A K : Type} `{!EqDecision K} (key : A → option K) (col : A → option num).





End groups.

End conservation.


(** * The two programs *)

Section reading.
Context {num : Type}.
Implicit Types (w : world num) (h : gmap loc (frame num)).

Lemma read_file_table w filename h f :
  read_csv w filename = CsvTable f →
  read_file w filename h = (<[fresh (dom h) := f]> h, inr (fresh (dom h))).
Proof. unfold read_file. by intros ->. Qed.

Lemma read_file_raises w filename h :
  (∀ f, read_csv w filename ≠ CsvTable f) →
  ∃ e, read_file w filename h = (h, inl e) ∧ caught e = true.
Proof.
  intros Hno. unfold read_file.
  destruct (read_csv w filename) as [f| | | |]; [by destruct (Hno f)|eauto..].
Qed.

Lemma read_files_raises w filename :
  filename ∈ ["teams.csv"; "revenue.csv"; "currency.csv"] →
  (∀ f, read_csv w filename ≠ CsvTable f) →
  ∃ e, read_files w = inl e ∧ caught e = true.
Proof.
  intros Hin Hno. unfold read_files.
  assert (∀ name h, (∃ f, read_file w name h
                          = (<[fresh (dom h) := f]> h, inr (fresh (dom h))))
                    ∨ (∃ e, read_file w name h = (h, inl e) ∧ caught e = true))
    as Hcases.
  { intros name h. destruct (read_csv w name) as [f| | | |] eqn:Hread.
    - left. exists f. by apply read_file_table.
    - right. apply read_file_raises. congruence.
    - right. apply read_file_raises. congruence.
    - right. apply read_file_raises. congruence.
    - right. apply read_file_raises. congruence. }
  assert (∀ h, ∃ e, read_file w filename h = (h, inl e) ∧ caught e = true) as Hbad
    by (intros h; by apply read_file_raises).
  repeat (apply elem_of_cons in Hin as [->|Hin]);
    [| | |by apply elem_of_nil in Hin].
  - destruct (Hbad ∅) as (e & -> & ?). eauto.
  - destruct (Hcases "teams.csv" ∅) as [[f ->]|(e & -> & ?)]; [|eauto].
    destruct (Hbad (<[fresh (dom (∅ : gmap loc (frame num))) := f]> ∅))
      as (e & -> & ?). eauto.
  - destruct (Hcases "teams.csv" ∅) as [[f ->]|(e & -> & ?)]; [|eauto].
    set (h1 := <[fresh (dom (∅ : gmap loc (frame num))) := f]> ∅).
    destruct (Hcases "revenue.csv" h1) as [[f' ->]|(e & -> & ?)]; [|eauto].
    destruct (Hbad (<[fresh (dom h1) := f']> h1)) as (e & -> & ?). eauto.
Qed.

Lemma read_files_tables w teams revenue currency :
  read_csv w "teams.csv" = CsvTable teams →
  read_csv w "revenue.csv" = CsvTable revenue →
  read_csv w "currency.csv" = CsvTable currency →
  ∃ h teams_df revenue_df currency_df,
    read_files w = inr (h, (teams_df, revenue_df, currency_df))
    ∧ h !! teams_df = Some teams
    ∧ h !! revenue_df = Some revenue
    ∧ h !! currency_df = Some currency.
Proof.
  intros Ht Hr Hc. unfold read_files.
  rewrite (read_file_table _ _ _ _ Ht).
  set (h1 := <[fresh (dom (∅ : gmap loc (frame num))) := teams]> ∅).
  rewrite (read_file_table _ _ _ _ Hr).
  set (h2 := <[fresh (dom h1) := revenue]> h1).
  rewrite (read_file_table _ _ _ _ Hc).
  assert (h1 !! fresh (dom (∅ : gmap loc (frame num))) = Some teams) as H1
    by apply lookup_insert_eq.
  assert (h2 !! fresh (dom h1) = Some revenue) as H2 by apply lookup_insert_eq.
  assert (h2 !! fresh (dom (∅ : gmap loc (frame num))) = Some teams) as H1'.
  { unfold h2. rewrite lookup_insert_ne; [done|]. by apply not_eq_sym; eapply lookup_fresh_ne. }
  eexists _, _, _, _. split; [done|]. split_and!.
  - rewrite lookup_insert_ne; [done|]. by apply not_eq_sym; eapply lookup_fresh_ne.
  - rewrite lookup_insert_ne; [done|]. by apply not_eq_sym; eapply lookup_fresh_ne.
  - apply lookup_insert_eq.
Qed.
End reading.

Section programs.
Context {num : Type} {rt : Runtime num}.
Implicit Types (w : world num) (h : gmap loc (frame num)).

(** X9.  When one of the three files cannot be read, whatever the reason,
    both programs print the error, export nothing and end without an
    exception; [detailed_rev] does not even ask for the user IDs. *)
Theorem mains_survive_read_errors w filename :
  filename ∈ ["teams.csv"; "revenue.csv"; "currency.csv"] →
  (∀ f, read_csv w filename ≠ CsvTable f) →
  ∃ e,
    main w = ([ErrorReadingFiles e], Returned)
    ∧ (∀ b stdin, detailed_main b w stdin = ([ErrorReadingFiles e], Returned))
    ∧ e ∈ [FileNotFoundError; Other ValueError; Other IOError].
Proof.
  intros Hin Hno. destruct (read_files_raises w filename Hin Hno) as (e & Hread & He).
  exists e. unfold main, detailed_main. rewrite Hread, He. split_and!; [done..|].
  destruct e as [| |[]]; simpl in He; try done.
  - by left.
  - right; left.
  - right; right; left.
Qed.
End programs.

Lemma mains_survive_read_errors_witness :
  ("teams.csv" ∈ ["teams.csv"; "revenue.csv"; "currency.csv"]
   ∧ ∀ f, read_csv no_teams_world "teams.csv" ≠ CsvTable f)
  ∧ main (rt := exact_runtime) no_teams_world
    = ([ErrorReadingFiles FileNotFoundError], Returned).
Proof.
  assert ("teams.csv" ∈ ["teams.csv"; "revenue.csv"; "currency.csv"]) as Hin by left.
  assert (∀ f, read_csv no_teams_world "teams.csv" ≠ CsvTable f) as Hno by done.
  split; [done|].
  destruct (mains_survive_read_errors (rt := exact_runtime) no_teams_world
              "teams.csv" Hin Hno) as (e & Hmain & _).
  rewrite Hmain. pose proof Hmain as Hrun. vm_compute in Hrun.
  by injection Hrun as <-.
Defined.

Section prompting.
Implicit Types (b : builtins) (stdin bad : list string).

Lemma split_comma_nonempty s : split_comma s ≠ [].
Proof.
  destruct s as [|a s]; simpl; [done|].
  case_bool_decide; [done|]. by destruct (split_comma s).
Qed.

Lemma parse_ids_length b line ids :
  parse_ids b line = Some ids → length ids = length (split_comma line).
Proof. unfold parse_ids. intros Hids. symmetry. by eapply length_mapM. Qed.

Lemma get_sales_id_input_invalid b bad stdin :
  Forall (λ line, parse_ids b line = None) bad →
  get_sales_id_input b (bad ++ stdin)
  = (mjoin ((λ _, [Prompt; InvalidInput]) <$> bad) ++ (get_sales_id_input b stdin).1,
     (get_sales_id_input b stdin).2).
Proof.
  induction 1 as [|line bad Hline _ IH]; simpl.
  - by destruct (get_sales_id_input b stdin).
  - rewrite Hline, IH. done.
Qed.

(** X10.  [get_sales_id_input] asks again after every line that is no
    comma-separated list of integers, printing the complaint each time, and
    returns the integers of the first line that is one, leaving the later
    lines unread.  The list it returns is never empty, one integer per
    field of the line; when the input ends before a valid line the last
    prompt raises EOFError, which the loop does not catch. *)
Theorem get_sales_id_input_first_valid b bad line rest ids :
  Forall (λ l, parse_ids b l = None) bad →
  parse_ids b line = Some ids →
  get_sales_id_input b (bad ++ line :: rest)
  = (mjoin ((λ _, [Prompt; InvalidInput]) <$> bad) ++ [Prompt], inr (ids, rest))
  ∧ ids ≠ []
  ∧ length ids = length (split_comma line)
  ∧ get_sales_id_input b bad
    = (mjoin ((λ _, [Prompt; InvalidInput]) <$> bad) ++ [Prompt], inl EOFError).
Proof.
  intros Hbad Hline. split_and!.
  - rewrite (get_sales_id_input_invalid _ _ _ Hbad). simpl. by rewrite Hline.
  - pose proof (parse_ids_length _ _ _ Hline) as Hlen.
    pose proof (split_comma_nonempty line) as Hne.
    intros ->. by destruct (split_comma line).
  - exact (parse_ids_length _ _ _ Hline).
  - rewrite <-(app_nil_r bad) at 1.
    by rewrite (get_sales_id_input_invalid _ _ _ Hbad).
Qed.
End prompting.

Lemma get_sales_id_input_first_valid_witness :
  (Forall (λ l, parse_ids sample_builtins l = None) [""; "1, x"; "1,,2"]
   ∧ parse_ids sample_builtins " 1,9 , 12" = Some [1; 9; 12]%Z)
  ∧ get_sales_id_input sample_builtins [""; "1, x"; "1,,2"; " 1,9 , 12"; "3"]
    = ([Prompt; InvalidInput; Prompt; InvalidInput; Prompt; InvalidInput; Prompt],
       inr ([1; 9; 12]%Z, ["3"])).
Proof.
  assert (Forall (λ l, parse_ids sample_builtins l = None) [""; "1, x"; "1,,2"])
    as Hbad by (repeat constructor).
  assert (parse_ids sample_builtins " 1,9 , 12" = Some [1; 9; 12]%Z) as Hline
    by reflexivity.
  split; [done|].
  exact (proj1 (get_sales_id_input_first_valid sample_builtins _ _ ["3"] _ Hbad Hline)).
Defined.

Section groupby_empty.
Context {A K : Type} `{!EqDecision K}.
Context (le : relation K) `{!∀ x y, Decision (le x y)} (key : A → option K).

Lemma groupby_nil df : Forall (λ r, key r = None) df → groupby le key df = [].
Proof.
  intros Hall. destruct (groupby le key df) as [|[k g] gs] eqn:Hg; [done|].
  assert ((k, g) ∈ groupby le key df) as Hin by (rewrite Hg; left).
  apply elem_of_groupby in Hin as [(r & Hr & Hk) _].
  rewrite Forall_forall in Hall. rewrite (Hall r Hr) in Hk. done.
Qed.

Lemma groupby_not_nil df r k : r ∈ df → key r = Some k → groupby le key df ≠ [].
Proof.
  intros Hr Hk Hnil.
  assert ((k, filter (λ r, key r = Some k) df) ∈ groupby le key df) as Hin.
  { apply elem_of_groupby. eauto. }
  rewrite Hnil in Hin. by apply elem_of_nil in Hin.
Qed.
End groupby_empty.

Section exporting.
Context {num : Type}.

Lemma export_then_empty {A} (w : world num) file_path log k :
  export_then (A := A) w [] file_path log k = (log, Raised (Other ValueError)).
Proof. done. Qed.

Lemma export_then_written {A} (w : world num) (df : list A) file_path log k :
  writable w file_path = true → df ≠ [] →
  export_then w df file_path log k = k (log ++ [Exported file_path]).
Proof.
  intros Hw Hdf. unfold export_then, export_to_csv, to_csv.
  destruct df; [done|]. by rewrite Hw.
Qed.

Lemma export_then_refused {A} (w : world num) (df : list A) file_path log k :
  writable w file_path = false → df ≠ [] →
  export_then w df file_path log k = (log, Raised (Other IOError)).
Proof.
  intros Hw Hdf. unfold export_then, export_to_csv, to_csv.
  destruct df; [done|]. by rewrite Hw.
Qed.
End exporting.

Section main_program.
Context {num : Type} {rt : Runtime num}.
Implicit Types (w : world num) (h : gmap loc (frame num)).

Lemma converted_length (revenue : list (RevenueRecord num)) teams
    joined1 joined2 currency1 :
  result_mapM parse_Date (merge_team revenue teams) = Ok joined1 →
  result_mapM float_Revenue joined1 = Ok joined2 →
  length revenue ≤ length (merge_rates joined2 currency1).
Proof.
  intros H1 H3.
  apply result_mapM_Forall2, Forall2_length in H1.
  apply result_mapM_Forall2, Forall2_length in H3.
  pose proof (merge_left_length_ge team_key team_row team_NA revenue teams) as Hteam.
  pose proof (merge_left_length_ge rate_key rate_row rate_NA joined2 currency1) as Hrate.
  unfold merge_team in H1. unfold merge_rates. lia.
Qed.

Lemma keyed_row_month (c : ConvertedRecord num) :
  is_datetime (Date (c_rev c)) → is_Some (quarterly_key c) → is_Some (month_of c).
Proof.
  unfold quarterly_key, month_of. intros Hd [k Hk].
  destruct (ID (c_team c)); [|done].
  destruct (Date (c_rev c)); simpl in *; done.
Qed.

Lemma main_exports w teams revenue currency joined1 currency1 joined2 :
  read_csv w "teams.csv" = CsvTable (Teams teams) →
  read_csv w "revenue.csv" = CsvTable (Revenues revenue) →
  read_csv w "currency.csv" = CsvTable (Rates currency) →
  result_mapM parse_Date (merge_team revenue (assign_currency <$> teams)) = Ok joined1 →
  result_mapM parse_DATE currency = Ok currency1 →
  result_mapM float_Revenue joined1 = Ok joined2 →
  let revenue_df := merge_rates joined2 currency1 in
  main w =
    export_then w revenue_df "revenue_df.csv" [] (λ log,
    export_then w (get_quarterly_rev revenue_df) "quarterly_rev.csv" log (λ log,
    export_then w
      ((λ kg : Period * list (option Period * ConvertedRecord num),
          {| m_Month := kg.1; m_Revenue_USD := sum (λ r, Revenue_USD r.2) kg.2 |})
       <$> groupby period_le fst ((λ c, (month_of c, c)) <$> revenue_df))
      "monthly_rev.csv" log (λ log, (log, Returned)))).
Proof.
  intros Ht Hr Hc H1 H2 H3 revenue_df.
  destruct (read_files_tables w _ _ _ Ht Hr Hc)
    as (h & teams_l & revenue_l & currency_l & Hread & Hl1 & Hl2 & Hl3).
  destruct (main_transform_spec _ _ _ _ _ _ _ _ _ _ Hl1 Hl2 Hl3 H1 H2 H3)
    as (h' & out & Hcall & Hout).
  assert (result_mapM with_Month revenue_df
          = Ok ((λ c, (month_of c, c)) <$> revenue_df)) as Hm.
  { apply with_Month_total, Forall_forall. intros c Hin.
    exists (Date (c_rev c)). apply to_datetime_is_datetime_id.
    by eapply converted_dates_parsed. }
  unfold main. rewrite Hread.
  rewrite (bind_ok _ _ _ _ _ Hcall), (load_converted_ok _ _ _ Hout).
  fold revenue_df. unfold get_total_monthly_revenue. rewrite Hm. done.
Qed.

(** X11.  [main] on three readable tables whose cells convert, with every
    output file writable: with no revenue row it raises ValueError before
    writing anything; with revenue rows none of which has both a team ID and
    a date it writes revenue_df.csv and then raises ValueError on the empty
    quarterly table; otherwise it writes the three files in order and
    returns, the monthly table being never empty once the quarterly one is
    not. *)
Theorem main_outcomes w teams revenue currency joined1 currency1 joined2 :
  read_csv w "teams.csv" = CsvTable (Teams teams) →
  read_csv w "revenue.csv" = CsvTable (Revenues revenue) →
  read_csv w "currency.csv" = CsvTable (Rates currency) →
  result_mapM parse_Date (merge_team revenue (assign_currency <$> teams)) = Ok joined1 →
  result_mapM parse_DATE currency = Ok currency1 →
  result_mapM float_Revenue joined1 = Ok joined2 →
  (∀ file_path, writable w file_path = true) →
  let revenue_df := merge_rates joined2 currency1 in
  (revenue = [] → main w = ([], Raised (Other ValueError)))
  ∧ (revenue ≠ [] → Forall (λ c, quarterly_key c = None) revenue_df →
       main w = ([Exported "revenue_df.csv"], Raised (Other ValueError)))
  ∧ (Exists (λ c, is_Some (quarterly_key c)) revenue_df →
       main w = ([Exported "revenue_df.csv"; Exported "quarterly_rev.csv";
                  Exported "monthly_rev.csv"], Returned)).
Proof.
  intros Ht Hr Hc H1 H2 H3 Hw revenue_df.
  pose proof (main_exports _ _ _ _ _ _ _ Ht Hr Hc H1 H2 H3) as Hmain.
  pose proof (converted_length _ _ _ _ currency1 H1 H3) as Hlen.
  fold revenue_df in Hlen. simpl in Hmain. fold revenue_df in Hmain.
  split_and!.
  - intros ->. simpl in H1. injection H1 as <-. simpl in H3. injection H3 as <-.
    by rewrite Hmain.
  - intros Hne Hnone. rewrite Hmain.
    rewrite export_then_written; [|done|].
    + unfold get_quarterly_rev. rewrite (groupby_nil _ _ _ Hnone). done.
    + intros Hnil. rewrite Hnil in Hlen. destruct revenue; simpl in Hlen; [done|lia].
  - intros (c & Hin & Hkey)%Exists_exists. rewrite Hmain.
    rewrite export_then_written; [|done|].
    2:{ intros Hnil. rewrite Hnil in Hin. by apply elem_of_nil in Hin. }
    rewrite export_then_written; [|done|].
    2:{ unfold get_quarterly_rev. intros Hnil%fmap_nil_inv. destruct Hkey as [k Hk].
        by eapply groupby_not_nil in Hnil. }
    rewrite export_then_written; [done|done|].
    intros Hnil%fmap_nil_inv.
    assert (is_Some (month_of c)) as [p Hp].
    { apply keyed_row_month; [|done]. by eapply converted_dates_parsed. }
    eapply (groupby_not_nil period_le fst _ (month_of c, c) p) in Hnil; [done| |done].
    apply list_elem_of_fmap. eauto.
Qed.
End main_program.

Lemma main_outcomes_witness :
  ∃ joined1 currency1 joined2,
    (read_csv strangers_world "teams.csv" = CsvTable (Teams [sample_team 7 "dee" "US"])
     ∧ read_csv strangers_world "revenue.csv" = CsvTable (Revenues sample_revenue)
     ∧ read_csv strangers_world "currency.csv" = CsvTable (Rates sample_rates)
     ∧ result_mapM parse_Date
         (merge_team sample_revenue (assign_currency <$> [sample_team 7 "dee" "US"]))
       = Ok joined1
     ∧ result_mapM parse_DATE sample_rates = Ok currency1
     ∧ result_mapM float_Revenue joined1 = Ok joined2
     ∧ (∀ file_path, writable strangers_world file_path = true)
     ∧ sample_revenue ≠ []
     ∧ Forall (λ c, quarterly_key c = None) (merge_rates joined2 currency1))
    ∧ main (rt := exact_runtime) strangers_world
      = ([Exported "revenue_df.csv"], Raised (Other ValueError)).
Proof.
  edestruct (main_outcomes (rt := exact_runtime) strangers_world
               [sample_team 7 "dee" "US"] sample_revenue sample_rates)
    as (_ & Hcase & _); [reflexivity..|].
  eexists _, _, _. split; [|apply Hcase; [done|repeat constructor]].
  split_and!; try reflexivity; [done|repeat constructor].
Defined.

Section detailed_program.
Context {num : Type} {rt : Runtime num}.
Implicit Types (w : world num) (b : builtins).

Lemma total_revenue_nil_iff (sales : list (RevenueRecord num)) sales_id teams
    joined1 joined2 currency1 :
  result_mapM parse_Date (merge_team (filter (isin sales_id) sales) teams) = Ok joined1 →
  result_mapM float_Revenue joined1 = Ok joined2 →
  total_revenue (merge_rates joined2 currency1) = [] ↔ filter (isin sales_id) sales = [].
Proof.
  intros H1 H3. split.
  - intros Hnil%fmap_nil_inv.
    destruct (filter (isin sales_id) sales) as [|r rs] eqn:Hf; [done|]. exfalso.
    assert (r ∈ filter (isin sales_id) sales) as Hr by (rewrite Hf; left).
    rewrite <-Hf in H1.
    destruct (every_revenue_row_converted _ _ _ _ currency1 _ H1 H3 Hr)
      as (c & Hc & Hu).
    apply list_elem_of_filter in Hr as [Hin _]. unfold isin in Hin.
    destruct (UserID r) as [u|] eqn:Hur; [|done].
    by eapply (groupby_not_nil Z.le (λ c, UserID (c_rev c))) in Hnil.
  - intros Hf. rewrite Hf in H1. simpl in H1. injection H1 as <-.
    simpl in H3. injection H3 as <-. done.
Qed.

(** X12.  [main] of [detailed_rev.py] on three readable tables, a user who
    types some invalid lines and then a list of IDs, and sales of those IDs
    whose cells convert: it prompts once per line typed; when none of the
    IDs has a sale it raises ValueError and writes nothing; otherwise it
    writes sales_revenue_output.csv and returns.  When the input ends
    before a valid line it ends with EOFError. *)
Theorem detailed_main_outcomes b w teams revenue currency bad line rest sales_id
    joined1 currency1 joined2 :
  read_csv w "teams.csv" = CsvTable (Teams teams) →
  read_csv w "revenue.csv" = CsvTable (Revenues revenue) →
  read_csv w "currency.csv" = CsvTable (Rates currency) →
  Forall (λ l, parse_ids b l = None) bad →
  parse_ids b line = Some sales_id →
  result_mapM parse_Date
    (merge_team (filter (isin sales_id) revenue) (assign_currency <$> teams)) = Ok joined1 →
  result_mapM parse_DATE currency = Ok currency1 →
  result_mapM float_Revenue joined1 = Ok joined2 →
  writable w "sales_revenue_output.csv" = true →
  let prompts := mjoin ((λ _, [Prompt; InvalidInput]) <$> bad) ++ [Prompt] in
  (filter (isin sales_id) revenue = [] →
     detailed_main b w (bad ++ line :: rest) = (prompts, Raised (Other ValueError)))
  ∧ (filter (isin sales_id) revenue ≠ [] →
       detailed_main b w (bad ++ line :: rest)
       = (prompts ++ [Exported "sales_revenue_output.csv"], Returned))
  ∧ detailed_main b w bad = (prompts, Raised EOFError).
Proof.
  intros Ht Hr Hc Hbad Hline H1 H2 H3 Hw prompts.
  destruct (read_files_tables w _ _ _ Ht Hr Hc)
    as (h & teams_df & revenue_df & currency_df & Hread & Hl1 & Hl2 & Hl3).
  destruct (sales_rev_spec h sales_id _ _ _ _ _ _ _ _ _ Hl2 Hl1 Hl3 H1 H2 H3)
    as [h' Hcall].
  pose proof (total_revenue_nil_iff _ _ _ _ _ currency1 H1 H3) as Hnil.
  assert (detailed_main b w (bad ++ line :: rest)
          = export_then w (total_revenue (merge_rates joined2 currency1))
              "sales_revenue_output.csv" prompts (λ log, (log, Returned))) as Hmain.
  { unfold detailed_main. rewrite Hread.
    rewrite (get_sales_id_input_invalid _ _ _ Hbad). simpl. rewrite Hline. simpl.
    by rewrite Hcall. }
  split_and!.
  - intros Hf. apply Hnil in Hf. by rewrite Hmain, Hf.
  - intros Hf. rewrite Hmain. apply export_then_written; [done|]. by rewrite Hnil.
  - unfold detailed_main. rewrite Hread. rewrite <-(app_nil_r bad) at 1.
    by rewrite (get_sales_id_input_invalid _ _ _ Hbad).
Qed.
End detailed_program.

Lemma detailed_main_outcomes_witness :
  ∃ joined1 currency1 joined2,
    (read_csv sample_world "teams.csv" = CsvTable (Teams sample_teams)
     ∧ read_csv sample_world "revenue.csv" = CsvTable (Revenues sample_revenue)
     ∧ read_csv sample_world "currency.csv" = CsvTable (Rates sample_rates)
     ∧ Forall (λ l, parse_ids sample_builtins l = None) ["one"]
     ∧ parse_ids sample_builtins "4, 5" = Some [4; 5]%Z
     ∧ result_mapM parse_Date
         (merge_team (filter (isin [4; 5]%Z) sample_revenue)
            (assign_currency <$> sample_teams)) = Ok joined1
     ∧ result_mapM parse_DATE sample_rates = Ok currency1
     ∧ result_mapM float_Revenue joined1 = Ok joined2
     ∧ writable sample_world "sales_revenue_output.csv" = true
     ∧ filter (isin [4; 5]%Z) sample_revenue = [])
    ∧ detailed_main (rt := exact_runtime) sample_builtins sample_world ["one"; "4, 5"]
      = ([Prompt; InvalidInput; Prompt], Raised (Other ValueError)).
Proof.
  edestruct (detailed_main_outcomes (rt := exact_runtime) sample_builtins sample_world
               sample_teams sample_revenue sample_rates ["one"] "4, 5" [] [4; 5]%Z)
    as (Hcase & _ & _); [reflexivity|reflexivity|reflexivity|repeat constructor|reflexivity..|].
  eexists _, _, _. split; [|apply Hcase; reflexivity].
  split_and!; try reflexivity. repeat constructor.
Defined.

Section monthly_rows.
Context {num : Type} {rt : Runtime num}.

Lemma get_total_monthly_revenue_keys (rows : list (ConvertedRecord num)) out :
  get_total_monthly_revenue rows = Ok out →
  m_Month <$> out = merge_sort period_le (remove_dups (omap month_of rows)).
Proof.
  unfold get_total_monthly_revenue.
  destruct (result_mapM with_Month rows) as [tagged|e] eqn:Ht; [|done]. simpl.
  intros [= <-]. apply with_Month_rows in Ht as ->.
  unfold groupby. rewrite <-!list_fmap_compose.
  rewrite (list_fmap_ext _ id); [|by intros _ ? _].
  rewrite list_fmap_id. do 2 f_equal.
  clear. induction rows as [|c rows IH]; [done|]. csimpl. by rewrite IH.
Qed.

(** X13.  [get_total_monthly_revenue] on any table: it returns exactly when
    every Date is missing, a timestamp or text that reads as a date, and
    then its months are those of the dated rows, each once, in increasing
    order, with no more rows than the table; otherwise it raises ValueError
    and some Date is text that is no date. *)
Theorem get_total_monthly_revenue_months (rows : list (ConvertedRecord num)) :
  match get_total_monthly_revenue rows with
  | Ok out =>
      Forall (λ c, ∃ d, to_datetime (Date (c_rev c)) = Ok d) rows
      ∧ NoDup (m_Month <$> out)
      ∧ Sorted period_le (m_Month <$> out)
      ∧ (∀ p, p ∈ m_Month <$> out ↔ ∃ c, c ∈ rows ∧ month_of c = Some p)
      ∧ length out ≤ length rows
  | Raise e =>
      e = ValueError
      ∧ ∃ c s, c ∈ rows ∧ Date (c_rev c) = DateStr s ∧ parse_date s = None
  end.
Proof.
  destruct (get_total_monthly_revenue rows) as [out|e] eqn:Hcall.
  - pose proof (get_total_monthly_revenue_keys _ _ Hcall) as Hkeys.
    split_and!.
    + unfold get_total_monthly_revenue in Hcall.
      destruct (result_mapM with_Month rows) as [tagged|e] eqn:Ht; [|done].
      apply result_mapM_Forall2 in Ht. clear Hcall Hkeys.
      induction Ht as [|c t l l' Hc _ IH]; constructor; [|done].
      unfold with_Month in Hc.
      destruct (to_datetime (Date (c_rev c))) as [d|]; [eauto|done].
    + rewrite Hkeys, merge_sort_Permutation. apply NoDup_remove_dups.
    + rewrite Hkeys. apply (Sorted_merge_sort period_le).
    + intros p. by rewrite Hkeys, merge_sort_Permutation, elem_of_remove_dups,
        list_elem_of_omap.
    + rewrite <-(length_fmap m_Month), Hkeys, merge_sort_Permutation.
      etrans; [apply remove_dups_length|].
      clear. induction rows as [|c rows IH]; [done|]. csimpl.
      destruct (month_of c); simpl; lia.
  - unfold get_total_monthly_revenue in Hcall.
    destruct (result_mapM with_Month rows) as [tagged|e'] eqn:Ht; [done|].
    simpl in Hcall. injection Hcall as ->.
    apply result_mapM_Raise in Ht as (c & Hin & Hc). unfold with_Month in Hc.
    destruct (Date (c_rev c)) as [|s|t] eqn:Hd; simpl in Hc; [done| |done].
    destruct (parse_date s) eqn:Hs; simpl in Hc; [done|].
    injection Hc as <-. split; [done|]. by exists c, s.
Qed.
End monthly_rows.
